(** * Notes / trash lifecycle of the notes server (server.js)

    A shallow embedding of the authenticated note routes of server.js:
    the bearer-token middleware, the per-user [notesRef]/[trashRef]
    addressing, and the seven note and trash handlers.  The realtime
    database, the clock and the identity service are the outside
    world: they appear as an explicit store, and as an environment
    that supplies clock readings, generated child keys, token
    verdicts and store rejections.  The handlers come twice: over the
    store calls alone, which is exact for an id that is one key and
    for values the store keeps as written, and with the database SDK
    in front ([sdk_handler]), which refuses some ids and does not
    store [null].  The upload route and the client's calls follow;
    the static file routes are left out. *)

From Stdlib Require Import ZArith.
From stdpp Require Import base option list strings gmap fin_maps.

Set Warnings "-register-all".
Local Open Scope Z_scope.
Local Open Scope string_scope.

(** ** JavaScript values *)

(** The JSON values that travel through request bodies, the store and
    the responses.  An object is a finite map on its property names. *)
Inductive json : Type :=
  | JNull
  | JBool (b : bool)
  | JNum (n : Z)
  | JStr (s : string)
  | JArr (l : list json)
  | JObj (o : gmap string json).

(** A note or trash record, a request body: a JavaScript object. *)
Abbreviation record := (gmap string json).

(** JavaScript truthiness of a JSON value ([!v] is its negation). *)
Definition truthy (v : json) : bool :=
  match v with
  | JNull => false
  | JBool b => b
  | JNum n => negb (Z.eqb n 0)
  | JStr s => negb (String.eqb s "")
  | JArr _ => true
  | JObj _ => true
  end.

(** [o.f || d]: a missing property reads as [undefined], which is falsy. *)
Definition prop_or (o : record) (f : string) (d : json) : json :=
  match o !! f with
  | Some v => if truthy v then v else d
  | None => d
  end.

(** [{ id: k, ...r }]: the spread is written after [id], so an own [id]
    property of [r] wins. *)
Definition with_id (k : string) (r : record) : record :=
  r ∪ {[ "id" := JStr k ]}.

(** [{ ...r, f: v }]. *)
Definition spread_then (r : record) (f : string) (v : json) : record :=
  <[ f := v ]> r.

(** ** The database tree [users/<uid>/{notes,trash}/<key>]

    The store is modelled at the interface the handlers use: read a
    location, push under a generated key, update, remove.  It keeps an
    object as it was written, a [null]-valued property included; a
    child is addressed by a single key. *)

Record user_node : Type := UserNode {
  notes : gmap string record;
  trash : gmap string record
}.

Definition empty_node : user_node := UserNode ∅ ∅.

Abbreviation database := (gmap string user_node).

Definition node_of (db : database) (uid : string) : user_node :=
  default empty_node (db !! uid).

Inductive collection : Type := Notes | Trash.

(** A database reference as the handlers build it: always
    [users/${uid}/notes] or [users/${uid}/trash]. *)
Record ref : Type := Ref { ref_uid : string; ref_coll : collection }.

Definition notesRef (uid : string) : ref := Ref uid Notes.
Definition trashRef (uid : string) : ref := Ref uid Trash.

Definition children (db : database) (r : ref) : gmap string record :=
  match ref_coll r with
  | Notes => notes (node_of db (ref_uid r))
  | Trash => trash (node_of db (ref_uid r))
  end.

Definition set_children (db : database) (r : ref) (c : gmap string record)
  : database :=
  let n := node_of db (ref_uid r) in
  match ref_coll r with
  | Notes => <[ ref_uid r := UserNode c (trash n) ]> db
  | Trash => <[ ref_uid r := UserNode (notes n) c ]> db
  end.

(** ** The world around one request *)

Record decoded_token : Type := Decoded { uid : string; email : option string }.

(** One store call of a handler, as it is issued. *)
Inductive io_op : Type :=
  | OpOnce (r : ref)
  | OpChildOnce (r : ref) (id : string)
  | OpPush (r : ref) (key : string)
  | OpChildUpdate (r : ref) (id : string)
  | OpChildRemove (r : ref) (id : string).

(** What the handlers cannot decide themselves.
    - [verifyIdToken]: the identity service; [None] is a rejected token.
    - [clock k]: the value of the k-th [Date.now()] of the request.
    - [push_key]: the child key the store generates for [push].
    - [rejects k]: [Some msg] when the k-th store call of the request
      rejects with message [msg]; a rejected call leaves the store as it was. *)
Record env : Type := Env {
  verifyIdToken : string → option decoded_token;
  clock : nat → Z;
  push_key : string;
  rejects : nat → option string
}.

(** The state a request runs in: the database, the log of the store
    calls issued so far (with whether each completed), and the number of
    clock readings taken. *)
Record world : Type := World {
  db : database;
  io_log : list (io_op * bool);
  ticks : nat
}.

Inductive outcome (A : Type) : Type :=
  | Returned (a : A)
  | Thrown (msg : string).
Arguments Returned {A} a.
Arguments Thrown {A} msg.

Definition M (A : Type) : Type := env → world → outcome A * world.

#[global] Instance M_ret : MRet M := λ A a _ w, (Returned a, w).

#[global] Instance M_bind : MBind M := λ A B k m e w,
  match m e w with
  | (Returned a, w') => k a e w'
  | (Thrown msg, w') => (Thrown msg, w')
  end.

(** [try { m } catch (err) { h err.message }]. *)
Definition try_catch {A} (m : M A) (h : string → M A) : M A :=
  λ e w, match m e w with
         | (Returned a, w') => (Returned a, w')
         | (Thrown msg, w') => h msg e w'
         end.

(** [Date.now()]. *)
Definition date_now : M Z :=
  λ e w, (Returned (clock e (ticks w)), World (db w) (io_log w) (S (ticks w))).

(** A store call: it rejects when the environment says so, and
    otherwise runs [f] on the database, all in one atomic step. *)
Definition store_call {A} (op : io_op) (f : database → A * database) : M A :=
  λ e w,
    match rejects e (length (io_log w)) with
    | Some msg => (Thrown msg, World (db w) (io_log w ++ [(op, false)]) (ticks w))
    | None =>
        let '(a, db') := f (db w) in
        (Returned a, World db' (io_log w ++ [(op, true)]) (ticks w))
    end.

(** [(await r.once('value')).val() || {}]: an empty location reads as
    [null], which the handlers replace by the empty object. *)
Definition once_value (r : ref) : M (gmap string record) :=
  store_call (OpOnce r) (λ d, (children d r, d)).

(** [(await r.child(id).once('value')).val()]: [None] is [null]. *)
Definition child_once (r : ref) (id : string) : M (option record) :=
  store_call (OpChildOnce r id) (λ d, (children d r !! id, d)).

(** [await r.push(v)]: writes [v] under the generated key and yields
    the key ([ref.key]). *)
Definition push (r : ref) (v : record) : M string :=
  λ e, store_call (OpPush r (push_key e))
         (λ d, (push_key e, set_children d r (<[ push_key e := v ]> (children d r)))) e.

(** [await r.child(id).update(u)]: writes the properties of [u] at the
    location, keeping the other properties already there; the location
    need not exist before. *)
Definition child_update (r : ref) (id : string) (u : record) : M unit :=
  store_call (OpChildUpdate r id)
    (λ d, (tt, set_children d r
                 (<[ id := u ∪ default ∅ (children d r !! id) ]> (children d r)))).

(** [await r.child(id).remove()]: removing an absent child is not an error. *)
Definition child_remove (r : ref) (id : string) : M unit :=
  store_call (OpChildRemove r id)
    (λ d, (tt, set_children d r (delete id (children d r)))).

(** ** Requests and responses *)

(** The parts of an Express request the routes read: the
    [Authorization] header, the [:id] path parameter, the parsed JSON body. *)
Record request : Type := Request {
  authorization : option string;
  params_id : string;
  body : record
}.

Record response : Type := Response { status : nat; payload : json }.

(** [res.json(v)] (status 200) and [res.status(c).json(v)]. *)
Definition res_json (v : json) : response := Response 200 v.
Definition res_status_json (c : nat) (v : json) : response := Response c v.

Definition error_body (msg : string) : json := JObj {[ "error" := JStr msg ]}.
Definition ok_body : json := JObj {[ "ok" := JBool true ]}.

(** The [catch (err) { res.status(500).json({ error: err.message }) }]
    that closes every route. *)
Definition on_error (msg : string) : M response :=
  mret (res_status_json 500 (error_body msg)).

(** ** Auth middleware *)

(** The part of [s] before the first occurrence of [sep]. *)
Fixpoint before_sep (sep s : string) : string :=
  match s with
  | EmptyString => EmptyString
  | String c s' =>
      if String.prefix sep s then EmptyString else String c (before_sep sep s')
  end.

(** [auth.split('Bearer ')[1]] for an [auth] that starts with
    ['Bearer ']: what lies between that prefix and the next separator. *)
Definition bearer_token (auth : string) : string :=
  before_sep "Bearer " (String.substring 7 (String.length auth - 7)%nat auth).

Definition verifyTokenMiddleware (req : request)
    (next : decoded_token → M response) : M response :=
  let auth := default "" (authorization req) in
  if negb (String.prefix "Bearer " auth)
  then mret (res_status_json 401 (error_body "No token provided"))
  else
    let idToken := bearer_token auth in
    λ e, match verifyIdToken e idToken with
         | Some decoded => next (Decoded (uid decoded) (email decoded)) e
         | None => (mret (res_status_json 401 (error_body "Invalid token"))
                      : M response) e
         end.

(** ** Notes endpoints (authenticated) *)

(** [Object.keys(data).map(k => ({ id: k, ...data[k] }))]: one element
    per key; the order of the keys is not modelled. *)
Definition as_array (data : gmap string record) : list json :=
  (λ kr, JObj (with_id kr.1 kr.2)) <$> map_to_list data.

(** [app.get('/api/notes', ...)] *)
Definition get_notes (user : decoded_token) (req : request) : M response :=
  try_catch
    (let uid := uid user in
     data ← once_value (notesRef uid);
     mret (res_json (JArr (as_array data))))
    on_error.

(** The object literal built by [POST /api/notes] from the request body
    and the two clock readings. *)
Definition new_note (b : record) (t1 t2 : Z) : record :=
  <[ "text" := prop_or b "text" (JStr "") ]>
  (<[ "file" := prop_or b "file" JNull ]>
  (<[ "createdAt" := JNum t1 ]>
  (<[ "updatedAt" := JNum t2 ]> ∅))).

(** [app.post('/api/notes', ...)] *)
Definition post_notes (user : decoded_token) (req : request) : M response :=
  try_catch
    (let uid := uid user in
     t1 ← date_now;
     t2 ← date_now;
     let note := new_note (body req) t1 t2 in
     key ← push (notesRef uid) note;
     mret (res_json (JObj (with_id key note))))
    on_error.

(** [app.put('/api/notes/:id', ...)] *)
Definition put_notes_id (user : decoded_token) (req : request) : M response :=
  try_catch
    (let uid := uid user in
     let id := params_id req in
     now ← date_now;
     let update := spread_then (body req) "updatedAt" (JNum now) in
     child_update (notesRef uid) id update;;
     snap ← child_once (notesRef uid) id;
     mret (res_json (JObj (with_id id (default ∅ snap)))))
    on_error.

(** [app.delete('/api/notes/:id', ...)]: move the note to the user's trash. *)
Definition delete_notes_id (user : decoded_token) (req : request) : M response :=
  try_catch
    (let uid := uid user in
     let id := params_id req in
     snap ← child_once (notesRef uid) id;
     match snap with
     | None => mret (res_status_json 404 (error_body "Note not found"))
     | Some note =>
         now ← date_now;
         push (trashRef uid) (spread_then note "deletedAt" (JNum now));;
         child_remove (notesRef uid) id;;
         mret (res_json ok_body)
     end)
    on_error.

(** [app.get('/api/trash', ...)] *)
Definition get_trash (user : decoded_token) (req : request) : M response :=
  try_catch
    (let uid := uid user in
     data ← once_value (trashRef uid);
     mret (res_json (JArr (as_array data))))
    on_error.

(** [app.post('/api/trash/restore/:id', ...)] *)
Definition post_trash_restore_id (user : decoded_token) (req : request)
  : M response :=
  try_catch
    (let uid := uid user in
     let id := params_id req in
     snap ← child_once (trashRef uid) id;
     match snap with
     | None => mret (res_status_json 404 (error_body "Trash item not found"))
     | Some item =>
         newKey ← push (notesRef uid) item;
         child_remove (trashRef uid) id;;
         mret (res_json (JObj (with_id newKey item)))
     end)
    on_error.

(** [app.delete('/api/trash/:id', ...)] *)
Definition delete_trash_id (user : decoded_token) (req : request) : M response :=
  try_catch
    (let uid := uid user in
     let id := params_id req in
     child_remove (trashRef uid) id;;
     mret (res_json ok_body))
    on_error.

(** ** The routing table *)

Inductive route : Type :=
  | GET_notes
  | POST_notes
  | PUT_notes_id
  | DELETE_notes_id
  | GET_trash
  | POST_trash_restore_id
  | DELETE_trash_id.

Definition handler (r : route) : decoded_token → request → M response :=
  match r with
  | GET_notes => get_notes
  | POST_notes => post_notes
  | PUT_notes_id => put_notes_id
  | DELETE_notes_id => delete_notes_id
  | GET_trash => get_trash
  | POST_trash_restore_id => post_trash_restore_id
  | DELETE_trash_id => delete_trash_id
  end.

(** A route as registered: the middleware, then the handler with
    [req.user] set. *)
Definition serve (r : route) (req : request) : M response :=
  verifyTokenMiddleware req (λ user, handler r user req).

(** Running one request against a database: a fresh log, no clock
    reading taken yet. *)
Definition run {A} (m : M A) (e : env) (d : database) : outcome A * world :=
  m e (World d [] 0).

(** The response a route sends (a route never lets an exception
    escape, see [handler_returns]). *)
Definition response_of (o : outcome response * world) : option response :=
  match o.1 with Returned r => Some r | Thrown _ => None end.

(** The user a request is served as: the one its bearer token
    verifies to, when it carries one (see [serve_as_user],
    [serve_unauthenticated]); the owner is that user's [uid]. *)
Definition verified_user (e : env) (req : request) : option decoded_token :=
  let auth := default "" (authorization req) in
  if String.prefix "Bearer " auth
  then (λ dec, Decoded (uid dec) (email dec)) <$> verifyIdToken e (bearer_token auth)
  else None.

Definition owner_of (e : env) (req : request) : option string :=
  uid <$> verified_user e req.

(** The location a store call addresses. *)
Definition op_ref (op : io_op) : ref :=
  match op with
  | OpOnce r => r
  | OpChildOnce r _ => r
  | OpPush r _ => r
  | OpChildUpdate r _ => r
  | OpChildRemove r _ => r
  end.

(** The route answered with status 200. *)
Definition succeeded (o : outcome response * world) : Prop :=
  status <$> response_of o = Some 200%nat.

(** ** Sample data used to exercise the statements below *)

Definition alice : decoded_token := Decoded "alice" (Some "alice@example.com").
Definition bob : decoded_token := Decoded "bob" None.

(** A quiet world: tokens [tok-alice] and [tok-bob] verify, the clock
    advances by one per reading from 1000, no store call rejects. *)
Definition quiet (key : string) : env :=
  Env (λ t, if String.eqb t "tok-alice" then Some alice
            else if String.eqb t "tok-bob" then Some bob else None)
      (λ k, 1000 + Z.of_nat k) key (λ _, None).

(** The same world, except that store call number [n] rejects. *)
Definition failing_at (n : nat) (key : string) : env :=
  Env (verifyIdToken (quiet key)) (clock (quiet key)) key
      (λ k, if Nat.eqb k n then Some "unavailable" else None).

(** The same world with a clock that stands still at 1000. *)
Definition frozen (key : string) : env :=
  Env (verifyIdToken (quiet key)) (λ _, 1000) key (λ _, None).

Definition milk : record :=
  <[ "text" := JStr "buy milk" ]> (<[ "file" := JNull ]>
  (<[ "createdAt" := JNum 1000 ]> (<[ "updatedAt" := JNum 1000 ]> ∅))).

Definition db_note : database :=
  set_children ∅ (notesRef "alice") {[ "n1" := milk ]}.

Definition db_trashed : database :=
  set_children ∅ (trashRef "alice")
    {[ "t1" := spread_then milk "deletedAt" (JNum 1005) ]}.

Definition as_alice (id : string) (b : record) : request :=
  Request (Some "Bearer tok-alice") id b.

(** ** File upload: [POST /api/upload]

    The blob store and the directory multer writes to are a second
    piece of outside state; the route does not touch the database. *)

(** [req.file] as multer leaves it. *)
Record upload_file : Type := UploadFile {
  file_path : string;
  originalname : string;
  mimetype : string;
  file_size : Z
}.

(** An object of the bucket: what was uploaded, and its metadata. *)
Record blob : Type := Blob {
  blob_data : string;
  contentType : string;
  downloadToken : string
}.

(** The temporary files under [uploads/] (path to content) and the
    objects of the bucket (destination to object). *)
Record storage : Type := Storage {
  uploads_dir : gmap string string;
  bucket : gmap string blob
}.

(** What the upload route cannot decide itself.
    - [uuidv4 k]: the value of the k-th [uuidv4()] of the request.
    - [upload_rejects]: [Some msg] when [bucket.upload] rejects.
    - [enoent]: the message of the error raised for a local file that
      does not exist.
    - [signing_rejects], [signed_url]: [getSignedUrl] rejecting, or the
      URL it yields for an object name. *)
Record upload_env : Type := UploadEnv {
  uuidv4 : nat → string;
  upload_rejects : option string;
  enoent : string;
  signing_rejects : option string;
  signed_url : string → string
}.

(** [`users/${uid}/notes/${uuid}_${originalname}`]. *)
Definition upload_destination (uid u name : string) : string :=
  "users/" ++ uid ++ "/notes/" ++ u ++ "_" ++ name.

(** [await bucket.upload(localPath, { destination, metadata })]: the
    content of the local file becomes the object at [destination]. *)
Definition bucket_upload (e : upload_env) (s : storage)
    (localPath destination ctype token : string) : string + storage :=
  match upload_rejects e with
  | Some msg => inl msg
  | None =>
      match uploads_dir s !! localPath with
      | None => inl (enoent e)
      | Some data =>
          inr (Storage (uploads_dir s)
                 (<[ destination := Blob data ctype token ]> (bucket s)))
      end
  end.

(** [fs.unlinkSync(localPath)]. *)
Definition unlinkSync (e : upload_env) (s : storage) (localPath : string)
  : string + storage :=
  match uploads_dir s !! localPath with
  | None => inl (enoent e)
  | Some _ => inr (Storage (delete localPath (uploads_dir s)) (bucket s))
  end.

(** The handler of [app.post('/api/upload', ...)], after the token
    middleware and [upload.single('file')] have run. *)
Definition post_upload (user : decoded_token) (file : option upload_file)
    (e : upload_env) (s : storage) : response * storage :=
  match file with
  | None => (res_status_json 400 (error_body "No file uploaded"), s)
  | Some f =>
      let localPath := file_path f in
      let destination :=
        upload_destination (uid user) (uuidv4 e 0%nat) (originalname f) in
      match bucket_upload e s localPath destination (mimetype f)
              (uuidv4 e 1%nat) with
      | inl msg => (res_status_json 500 (error_body msg), s)
      | inr s1 =>
          match unlinkSync e s1 localPath with
          | inl msg => (res_status_json 500 (error_body msg), s1)
          | inr s2 =>
              match signing_rejects e with
              | Some msg => (res_status_json 500 (error_body msg), s2)
              | None =>
                  (res_json (JObj
                     (<[ "name" := JStr (originalname f) ]>
                     (<[ "mime" := JStr (mimetype f) ]>
                     (<[ "size" := JNum (file_size f) ]>
                     (<[ "url" := JStr (signed_url e destination) ]> ∅))))),
                   s2)
              end
          end
      end
  end.

(** ** The browser client (app.js), where it meets the routes *)

(** Whether [sep] occurs somewhere in [s]. *)
Fixpoint has_sep (sep s : string) : bool :=
  match s with
  | EmptyString => String.prefix sep s
  | String _ s' => String.prefix sep s || has_sep sep s'
  end.

(** [if (idToken)], for an [idToken] that is [null] or a string: the
    empty string is falsy. *)
Definition has_token (idToken : option string) : bool :=
  match idToken with
  | Some t => negb (String.eqb t "")
  | None => false
  end.

(** [apiFetch]: [if (idToken) headers['Authorization'] = 'Bearer ' + idToken],
    on the headers a caller passes, none of which sets [Authorization]. *)
Definition api_authorization (idToken : option string) : option string :=
  if has_token idToken then Some ("Bearer " ++ default "" idToken) else None.

(** [res.ok]: a status from 200 to 299. *)
Definition res_ok (r : response) : bool :=
  (200 <=? status r)%nat && (status r <=? 299)%nat.

(** [apiFetch], given what [fetch] produced ([None]: [fetch] itself
    rejected): the parsed body, or [None] for the [Error] it throws,
    whose message is only ever logged. *)
Definition apiFetch (res : option response) : option json :=
  match res with
  | Some r => if res_ok r then Some (payload r) else None
  | None => None
  end.

(** [fetchNotes] and [fetchTrash]: the new value of the client's
    [notes] (or [trash]) variable.  Without a token no request is
    made, so [res] is not looked at; a failed request leaves [[]]. *)
Definition fetch_list (idToken : option string) (res : option response) : json :=
  if has_token idToken then
    match apiFetch res with
    | Some v => v
    | None => JArr []
    end
  else JArr [].





(** [JSON.stringify({ text: res.name, file: res })] for the parsed
    upload answer [res]: a property whose value is [undefined] is left
    out, and only an object can have a [name]. *)
Definition import_body (res : json) : record :=
  match res with
  | JObj o =>
      match o !! "name" with
      | Some v => <[ "text" := v ]> {[ "file" := res ]}
      | None => {[ "file" := res ]}
      end
  | _ => {[ "file" := res ]}
  end.

(** [handleFileImport], once a file is chosen: the body of the [POST
    /api/notes] that follows the upload, given what [fetch] produced
    for the upload.  [None] when no create request is sent: no token,
    [apiFetch] threw, or the answer was [null] and reading [res.name]
    threw. *)
Definition handleFileImport (idToken : option string)
    (uploaded : option response) : option record :=
  if has_token idToken then
    match apiFetch uploaded with
    | Some JNull => None
    | Some res => Some (import_body res)
    | None => None
    end
  else None.

(** ** What the database SDK does with an id and a value

    The store calls above are exact for an id that is one key and a
    value the store keeps as written.  Before a call is sent the SDK
    refuses some ids, reads others as paths into an entry, and drops
    [null]-valued properties; the handlers below add that.  Where the
    effect is not followed here (a path into an entry, an array, an
    empty or nested object, an unusual key) they are [None]. *)

(** The characters the SDK refuses in a path: [[ ] . # $] and the
    control characters. *)
Definition refused_char (c : Ascii.ascii) : bool :=
  let n := Ascii.nat_of_ascii c in
  (n <? 32)%nat || (n =? 127)%nat || (n =? 91)%nat || (n =? 93)%nat
  || (n =? 46)%nat || (n =? 35)%nat || (n =? 36)%nat.

Definition is_slash (c : Ascii.ascii) : bool := (Ascii.nat_of_ascii c =? 47)%nat.
Definition is_digit (c : Ascii.ascii) : bool :=
  let n := Ascii.nat_of_ascii c in (48 <=? n)%nat && (n <=? 57)%nat.

Fixpoint has_char (p : Ascii.ascii → bool) (s : string) : bool :=
  match s with
  | EmptyString => false
  | String c s' => p c || has_char p s'
  end.

Fixpoint all_chars (p : Ascii.ascii → bool) (s : string) : bool :=
  match s with
  | EmptyString => true
  | String c s' => p c && all_chars p s'
  end.

(** Keys longer than this are left aside: the store bounds the length
    of a whole path. *)
Definition max_key_length : nat := 128.

Inductive path_kind : Type := PathRefused | PathKey | PathBeyond.

(** How [child(id)] reads [id]: refused (it throws), one key, or
    something this development does not follow (a path with [/], a
    very long key). *)
Definition path_kind_of (id : string) : path_kind :=
  if String.eqb id "" || has_char refused_char id then PathRefused
  else if has_char is_slash id || (max_key_length <? String.length id)%nat
       then PathBeyond
       else PathKey.

(** A property name the store keeps as written and gives back as
    written: one key, and not a numeral (an object whose keys are
    numerals may be read back as an array). *)
Definition field_key (k : string) : bool :=
  match path_kind_of k with
  | PathKey =>
      negb (all_chars is_digit
              (match k with
               | String c k' => if (Ascii.nat_of_ascii c =? 45)%nat then k' else k
               | EmptyString => k
               end))
  | _ => false
  end.

Definition scalar (v : json) : bool :=
  match v with
  | JBool _ | JNum _ | JStr _ => true
  | _ => false
  end.

Definition is_null (v : json) : bool :=
  match v with JNull => true | _ => false end.

(** A value the store keeps exactly as written: a scalar, or a
    non-empty object of scalars (such as an attachment). *)
Definition simple_value (v : json) : bool :=
  match v with
  | JObj o =>
      negb (bool_decide (size o = 0%nat))
      && bool_decide (map_Forall (λ k x, field_key k = true ∧ scalar x = true) o)
  | _ => scalar v
  end.

(** A property the SDK either writes as given or, for [null], removes. *)
Definition property_followed (v : json) : bool := is_null v || simple_value v.

Definition body_followed (b : record) : bool :=
  bool_decide
    (map_Forall (λ k v, field_key k = true ∧ property_followed v = true) b).

(** What is stored of an object that is written: its [null]-valued
    properties are not. *)
Definition drop_nulls (o : record) : record :=
  filter (λ kv, is_null kv.2 = false) o.

(** What [update(u)] leaves of the record [old]: the properties of [u]
    replace those of [old] of the same name, a [null] one removing it. *)
Definition merge_update (u old : record) : record :=
  drop_nulls u ∪ (old ∖ u).

(** The messages of the errors the SDK throws. *)
Record sdk_messages : Type := SdkMessages {
  invalid_path : string → string
}.

Definition throw {A} (msg : string) : M A := λ _ w, (Thrown msg, w).

(** [child(id)] in front of a handler's first store call. *)
Definition guarded_by_id (k : sdk_messages) (id : string) (h : M response)
  : option (M response) :=
  match path_kind_of id with
  | PathRefused => Some (try_catch (throw (invalid_path k id)) on_error)
  | PathKey => Some h
  | PathBeyond => None
  end.

(** [await r.child(id).update(u)] for a key [id] and a followed [u]. *)
Definition sdk_child_update (r : ref) (id : string) (u : record) : M unit :=
  store_call (OpChildUpdate r id)
    (λ d, (tt, set_children d r
                 (<[ id := merge_update u (default ∅ (children d r !! id)) ]>
                    (children d r)))).

(** [app.put('/api/notes/:id', ...)] with the SDK's reading of the id
    and of the body. *)
Definition sdk_put_notes_id (k : sdk_messages) (user : decoded_token)
    (req : request) : option (M response) :=
  let uid := uid user in
  let id := params_id req in
  match path_kind_of id with
  | PathBeyond => None
  | PathRefused =>
      Some (try_catch (now ← date_now; throw (invalid_path k id)) on_error)
  | PathKey =>
      if body_followed (body req) then
        Some (try_catch
                (now ← date_now;
                 let update := spread_then (body req) "updatedAt" (JNum now) in
                 sdk_child_update (notesRef uid) id update;;
                 snap ← child_once (notesRef uid) id;
                 mret (res_json (JObj (with_id id (default ∅ snap)))))
                on_error)
      else None
  end.

(** [app.post('/api/notes', ...)] with the SDK's reading of the note:
    the answer is the note as built, the store gets it without its
    [null]-valued properties. *)
Definition sdk_post_notes (user : decoded_token) (req : request)
  : option (M response) :=
  let uid := uid user in
  if property_followed (prop_or (body req) "text" (JStr ""))
     && property_followed (prop_or (body req) "file" JNull)
  then
    Some (try_catch
            (t1 ← date_now;
             t2 ← date_now;
             let note := new_note (body req) t1 t2 in
             key ← push (notesRef uid) (drop_nulls note);
             mret (res_json (JObj (with_id key note))))
            on_error)
  else None.

(** The routing table, with the SDK in front of the store. *)
Definition sdk_handler (k : sdk_messages) (r : route) (user : decoded_token)
    (req : request) : option (M response) :=
  match r with
  | GET_notes => Some (get_notes user req)
  | GET_trash => Some (get_trash user req)
  | POST_notes => sdk_post_notes user req
  | PUT_notes_id => sdk_put_notes_id k user req
  | DELETE_notes_id =>
      guarded_by_id k (params_id req) (delete_notes_id user req)
  | POST_trash_restore_id =>
      guarded_by_id k (params_id req) (post_trash_restore_id user req)
  | DELETE_trash_id =>
      guarded_by_id k (params_id req) (delete_trash_id user req)
  end.

(** A route as registered: the middleware, then the handler. *)
Definition sdk_serve (k : sdk_messages) (r : route) (req : request)
    (e : env) (d : database) : option (outcome response * world) :=
  match verified_user e req with
  | None => Some (run (serve r req) e d)
  | Some user => (λ m, run m e d) <$> sdk_handler k r user req
  end.


(** The SDK's messages used in the examples. *)
Definition terse : sdk_messages := SdkMessages (λ id, "invalid path " ++ id).

(** A note as the store holds it (no [null]-valued property), and the
    databases of a user with that one note, and with it in the trash. *)
Definition stored_milk : record :=
  <[ "text" := JStr "buy milk" ]>
    (<[ "createdAt" := JNum 1000 ]> (<[ "updatedAt" := JNum 1000 ]> ∅)).

Definition db_stored : database :=
  set_children ∅ (notesRef "alice") {[ "n1" := stored_milk ]}.

Definition db_binned : database :=
  set_children ∅ (trashRef "alice")
    {[ "t1" := spread_then stored_milk "deletedAt" (JNum 1005) ]}.

(** [POST /api/upload] as registered: the token middleware, then the
    upload handler. *)
Definition upload_route (req : request) (file : option upload_file)
    (e : env) (ue : upload_env) (s : storage) : response * storage :=
  let auth := default "" (authorization req) in
  if negb (String.prefix "Bearer " auth)
  then (res_status_json 401 (error_body "No token provided"), s)
  else
    match verifyIdToken e (bearer_token auth) with
    | Some decoded =>
        post_upload (Decoded (uid decoded) (email decoded)) file ue s
    | None => (res_status_json 401 (error_body "Invalid token"), s)
    end.

(** ** Facts about the store *)

Lemma children_set_children (d : database) (r : ref) (c : gmap string record) :
  children (set_children d r c) r = c.
Proof.
  destruct r as [u []]; unfold children, set_children, node_of; simpl;
    by rewrite lookup_insert_eq.
Qed.

Lemma children_notes_set_trash (d : database) (u : string) (c : gmap string record) :
  children (set_children d (trashRef u) c) (notesRef u) = children d (notesRef u).
Proof.
  unfold children, set_children, node_of; simpl. by rewrite lookup_insert_eq.
Qed.

Lemma children_trash_set_notes (d : database) (u : string) (c : gmap string record) :
  children (set_children d (notesRef u) c) (trashRef u) = children d (trashRef u).
Proof.
  unfold children, set_children, node_of; simpl. by rewrite lookup_insert_eq.
Qed.

Lemma node_of_set_children_ne (d : database) (r : ref) (c : gmap string record)
    (u : string) :
  ref_uid r ≠ u → node_of (set_children d r c) u = node_of d u.
Proof.
  intros Hne. destruct r as [v []]; unfold set_children, node_of; simpl in *;
    by rewrite lookup_insert_ne.
Qed.

Lemma node_of_children (d1 d2 : database) (r : ref) :
  node_of d1 (ref_uid r) = node_of d2 (ref_uid r) → children d1 r = children d2 r.
Proof. intros H. unfold children. by rewrite H. Qed.

Lemma node_of_set_children_eq (d1 d2 : database) (r : ref) (c : gmap string record) :
  node_of d1 (ref_uid r) = node_of d2 (ref_uid r) →
  node_of (set_children d1 r c) (ref_uid r) = node_of (set_children d2 r c) (ref_uid r).
Proof.
  intros H. destruct r as [u []]; unfold set_children, node_of in *; simpl in *;
    rewrite !lookup_insert_eq; simpl; by rewrite H.
Qed.

(** What [GET] lists: one element per stored key. *)
Lemma elem_of_as_array (data : gmap string record) (x : json) :
  x ∈ as_array data ↔ ∃ k r, data !! k = Some r ∧ x = JObj (with_id k r).
Proof.
  unfold as_array. rewrite list_elem_of_fmap. split.
  - intros [[k r] [-> Hin]]. apply elem_of_map_to_list in Hin. eauto.
  - intros (k & r & Hkr & ->). exists (k, r). split; [done|].
    by apply elem_of_map_to_list.
Qed.

Lemma with_id_lookup_id (k : string) (r : record) :
  r !! "id" = None → with_id k r !! "id" = Some (JStr k).
Proof.
  intros H. unfold with_id. rewrite lookup_union_r by done.
  apply lookup_singleton_eq.
Qed.

Lemma with_id_lookup_ne (k f : string) (r : record) :
  f ≠ "id" → with_id k r !! f = r !! f.
Proof.
  intros H. unfold with_id. rewrite lookup_union, lookup_singleton_ne by done.
  by destruct (r !! f).
Qed.

Ltac children_simpl :=
  repeat first
    [ rewrite children_set_children
    | rewrite children_notes_set_trash
    | rewrite children_trash_set_notes ].

(** Symbolic execution of a handler, one store call at a time. *)
Ltac exec :=
  unfold run, get_notes, post_notes, put_notes_id, delete_notes_id, get_trash,
    post_trash_restore_id, delete_trash_id, try_catch, on_error,
    once_value, child_once, push, child_update, child_remove, store_call,
    date_now, mbind, M_bind, mret, M_ret, response_of; simpl.

(** A question about the position of a removal in a concrete log of at
    most three store calls: either the position holds another call, or
    the push sits at position 1 before it. *)
Ltac log_positions :=
  let i := fresh "i" in
  let Hi := fresh "Hi" in
  intros i ? Hi;
  do 3 (destruct i as [|i]; simpl in Hi;
        [ first [ discriminate Hi
                | exists 1%nat; split; [lia | reflexivity] ] | ]);
  try rewrite lookup_nil in Hi; discriminate Hi.

(** Case analysis on the next store call (rejected or not) and on the
    next child read (present or not), until the handler has run. *)
Ltac step_store :=
  match goal with
  | |- context [rejects ?e ?n] => destruct (rejects e n) eqn:?; simpl
  end.

Ltac step_lookup :=
  match goal with
  | |- context [children ?d ?r !! ?k] =>
      destruct (children d r !! k) eqn:?; simpl
  end.

Ltac exec_all :=
  exec; repeat first [progress children_simpl | step_store | step_lookup].

(** A concrete log that lacks one of two calls assumed to be in it. *)
Ltac absent_from_log H :=
  repeat (apply elem_of_cons in H as [H|H]; [discriminate H|]);
  apply elem_of_nil in H; exact H.

Ltac log_members :=
  let H1 := fresh "Hin" in
  let H2 := fresh "Hin" in
  intros H1 H2; exfalso; first [absent_from_log H1 | absent_from_log H2].

(** Every handler sends a response: the [catch] of each route turns a
    rejected store call into a 500. *)
Lemma handler_returns (r : route) (user : decoded_token) (req : request)
    (e : env) (w : world) :
  ∃ resp, (handler r user req e w).1 = Returned resp.
Proof. destruct r; simpl; exec_all; by eexists. Qed.

(** ** Soft delete: [DELETE /api/notes/:id] *)


(** ** Ordering of the two writes of a move *)

(** C2. In a soft delete and in a restore, a removal from the source
    collection is only ever issued after the push into the destination
    collection has completed.  Hence, when the push completed and the
    removal was rejected, the record is in both collections, and
    whatever the store rejects the record is never in neither of them. *)
Theorem create_before_remove (e : env) (d : database) (user : decoded_token)
    (req : request) (R : record) :
  let u := uid user in
  let id := params_id req in
  (children d (notesRef u) !! id = Some R →
   let out := run (delete_notes_id user req) e d in
   let copy := spread_then R "deletedAt" (JNum (clock e 0%nat)) in
   let pushed := (OpPush (trashRef u) (push_key e), true) in
   (∀ i ok, io_log out.2 !! i = Some (OpChildRemove (notesRef u) id, ok) →
      ∃ j, (j < i)%nat ∧ io_log out.2 !! j = Some pushed) ∧
   (pushed ∈ io_log out.2 →
    (OpChildRemove (notesRef u) id, false) ∈ io_log out.2 →
    children (db out.2) (notesRef u) !! id = Some R ∧
    children (db out.2) (trashRef u) !! push_key e = Some copy) ∧
   (children (db out.2) (notesRef u) !! id = Some R ∨
    children (db out.2) (trashRef u) !! push_key e = Some copy)) ∧
  (children d (trashRef u) !! id = Some R →
   let out := run (post_trash_restore_id user req) e d in
   let pushed := (OpPush (notesRef u) (push_key e), true) in
   (∀ i ok, io_log out.2 !! i = Some (OpChildRemove (trashRef u) id, ok) →
      ∃ j, (j < i)%nat ∧ io_log out.2 !! j = Some pushed) ∧
   (pushed ∈ io_log out.2 →
    (OpChildRemove (trashRef u) id, false) ∈ io_log out.2 →
    children (db out.2) (trashRef u) !! id = Some R ∧
    children (db out.2) (notesRef u) !! push_key e = Some R) ∧
   (children (db out.2) (trashRef u) !! id = Some R ∨
    children (db out.2) (notesRef u) !! push_key e = Some R)).
Proof.
  intros u id. subst u id. split; intros HR out copy; [intros pushed|];
    subst out; [subst copy pushed|subst copy]; exec.
  - destruct (rejects e 0) eqn:H0; simpl.
    { split_and!; [log_positions|log_members|by left]. }
    rewrite HR; simpl.
    destruct (rejects e 1) eqn:H1; simpl.
    { split_and!; [log_positions|log_members|by left]. }
    destruct (rejects e 2) eqn:H2; simpl; children_simpl.
    + split_and!; [log_positions| |by left].
      intros _ _. by rewrite lookup_insert_eq.
    + split_and!; [log_positions|log_members|].
      right. by rewrite lookup_insert_eq.
  - destruct (rejects e 0) eqn:H0; simpl.
    { split_and!; [log_positions|log_members|by left]. }
    rewrite HR; simpl.
    destruct (rejects e 1) eqn:H1; simpl.
    { split_and!; [log_positions|log_members|by left]. }
    destruct (rejects e 2) eqn:H2; simpl; children_simpl.
    + split_and!; [log_positions| |by left].
      intros _ _. by rewrite lookup_insert_eq.
    + split_and!; [log_positions|log_members|].
      right. by rewrite lookup_insert_eq.
Qed.

Lemma create_before_remove_witness :
  let out :=
    run (delete_notes_id alice (as_alice "n1" ∅)) (failing_at 2 "t1") db_note in
  let back :=
    run (post_trash_restore_id alice (as_alice "t1" ∅)) (failing_at 2 "n2")
        db_trashed in
  let binned := spread_then milk "deletedAt" (JNum 1005) in
  (children db_note (notesRef "alice") !! "n1" = Some milk ∧
   (OpPush (trashRef "alice") "t1", true) ∈ io_log out.2 ∧
   (OpChildRemove (notesRef "alice") "n1", false) ∈ io_log out.2 ∧
   children db_trashed (trashRef "alice") !! "t1" = Some binned ∧
   (OpPush (notesRef "alice") "n2", true) ∈ io_log back.2 ∧
   (OpChildRemove (trashRef "alice") "t1", false) ∈ io_log back.2) ∧
  (children (db out.2) (notesRef "alice") !! "n1" = Some milk ∧
   children (db out.2) (trashRef "alice") !! "t1"
   = Some (spread_then milk "deletedAt" (JNum 1000))) ∧
  (children (db back.2) (trashRef "alice") !! "t1" = Some binned ∧
   children (db back.2) (notesRef "alice") !! "n2" = Some binned).
Proof.
  intros out back binned.
  assert (H1 : children db_note (notesRef "alice") !! "n1" = Some milk)
    by reflexivity.
  assert (H2 : (OpPush (trashRef "alice") "t1", true) ∈ io_log out.2)
    by (apply list_elem_of_lookup; exists 1%nat; reflexivity).
  assert (H3 : (OpChildRemove (notesRef "alice") "n1", false) ∈ io_log out.2)
    by (apply list_elem_of_lookup; exists 2%nat; reflexivity).
  assert (H4 : children db_trashed (trashRef "alice") !! "t1" = Some binned)
    by reflexivity.
  assert (H5 : (OpPush (notesRef "alice") "n2", true) ∈ io_log back.2)
    by (apply list_elem_of_lookup; exists 1%nat; reflexivity).
  assert (H6 : (OpChildRemove (trashRef "alice") "t1", false) ∈ io_log back.2)
    by (apply list_elem_of_lookup; exists 2%nat; reflexivity).
  destruct (create_before_remove (failing_at 2 "t1") db_note alice
              (as_alice "n1" ∅) milk) as [Hdel _].
  destruct (Hdel H1) as (_ & Hboth & _).
  destruct (create_before_remove (failing_at 2 "n2") db_trashed alice
              (as_alice "t1" ∅) binned) as [_ Hres].
  destruct (Hres H4) as (_ & Hboth' & _).
  split; [exact (conj H1 (conj H2 (conj H3 (conj H4 (conj H5 H6)))))|].
  split; [exact (Hboth H2 H3) | exact (Hboth' H5 H6)].
Defined.

(** ** Restore: [POST /api/trash/restore/:id] *)


(** ** Update: [PUT /api/notes/:id] *)

(** What the update call leaves in the store once it completed. *)
Lemma put_notes_id_db (e : env) (d : database) (user : decoded_token)
    (req : request) :
  let u := uid user in
  let id := params_id req in
  let out := run (put_notes_id user req) e d in
  rejects e 0%nat = None →
  children (db out.2) (notesRef u)
  = <[ id := spread_then (body req) "updatedAt" (JNum (clock e 0%nat))
             ∪ default ∅ (children d (notesRef u) !! id) ]>
      (children d (notesRef u)) ∧
  children (db out.2) (trashRef u) = children d (trashRef u).
Proof.
  intros u id out H0. subst out u id. exec. rewrite H0. simpl.
  destruct (rejects e 1); simpl; by children_simpl.
Qed.

Lemma put_notes_id_response (e : env) (d : database) (user : decoded_token)
    (req : request) :
  let u := uid user in
  let id := params_id req in
  let out := run (put_notes_id user req) e d in
  rejects e 0%nat = None → rejects e 1%nat = None →
  response_of out
  = Some (res_json (JObj (with_id id
            (spread_then (body req) "updatedAt" (JNum (clock e 0%nat))
             ∪ default ∅ (children d (notesRef u) !! id))))).
Proof.
  intros u id out H0 H1. subst out u id. exec. rewrite H0. simpl.
  rewrite H1. simpl. children_simpl. by rewrite lookup_insert_eq.
Qed.

(** The three ways a property of the merged record is decided. *)
Lemma merged_updatedAt (b N : record) (t : Z) :
  (spread_then b "updatedAt" (JNum t) ∪ N) !! "updatedAt" = Some (JNum t).
Proof.
  apply lookup_union_Some_l. unfold spread_then. apply lookup_insert_eq.
Qed.



(** C4. The update route has no branch for a missing note: it never
    answers 404, and for an [id] that is not in the active collection a
    completed update call stores a new record under [id], made of the
    request body and [updatedAt], which the route then answers with
    status 200. *)
Theorem update_missing_id_creates (e : env) (d : database)
    (user : decoded_token) (req : request) :
  let u := uid user in
  let id := params_id req in
  let out := run (put_notes_id user req) e d in
  let made := spread_then (body req) "updatedAt" (JNum (clock e 0%nat)) in
  (∀ r, response_of out = Some r → status r ≠ 404%nat) ∧
  (children d (notesRef u) !! id = None →
   rejects e 0%nat = None →
   children (db out.2) (notesRef u) !! id = Some made ∧
   children (db out.2) (notesRef u) ≠ children d (notesRef u) ∧
   (rejects e 1%nat = None →
    response_of out = Some (res_json (JObj (with_id id made))))).
Proof.
  intros u id out made. split.
  - subst out. exec. intros r.
    destruct (rejects e 0); simpl; [by intros [= <-]|].
    destruct (rejects e 1); simpl; by intros [= <-].
  - intros Hmiss H0.
    destruct (put_notes_id_db e d user req H0) as [Hdb _].
    fold u id out in Hdb. rewrite Hmiss in Hdb. simpl in Hdb.
    rewrite (right_id_L ∅ (∪)) in Hdb. fold made in Hdb.
    split_and!.
    + rewrite Hdb. apply lookup_insert_eq.
    + intros Heq. rewrite Hdb in Heq.
      assert (Hl : (<[id:=made]> (children d (notesRef u))) !! id = Some made)
        by apply lookup_insert_eq.
      rewrite Heq, Hmiss in Hl. discriminate Hl.
    + intros H1. pose proof (put_notes_id_response e d user req H0 H1) as Hr.
      fold u id out in Hr. rewrite Hmiss in Hr. simpl in Hr.
      by rewrite (right_id_L ∅ (∪)) in Hr.
Qed.

Lemma update_missing_id_creates_witness :
  let out :=
    run (put_notes_id alice (as_alice "ghost" {[ "done" := JBool true ]}))
        (quiet "k") ∅ in
  let made : record := <[ "updatedAt" := JNum 1000 ]> {[ "done" := JBool true ]} in
  (children ∅ (notesRef "alice") !! "ghost" = None ∧
   rejects (quiet "k") 0%nat = None ∧ rejects (quiet "k") 1%nat = None) ∧
  children (db out.2) (notesRef "alice") !! "ghost" = Some made ∧
  response_of out = Some (res_json (JObj (with_id "ghost" made))).
Proof.
  intros out made.
  assert (Hm : children (∅ : database) (notesRef "alice") !! "ghost" = None)
    by reflexivity.
  assert (H0 : rejects (quiet "k") 0%nat = None) by reflexivity.
  assert (H1 : rejects (quiet "k") 1%nat = None) by reflexivity.
  destruct (update_missing_id_creates (quiet "k") ∅ alice
              (as_alice "ghost" {[ "done" := JBool true ]})) as [_ Hc].
  destruct (Hc Hm H0) as (Hmade & _ & Hresp).
  split; [exact (conj Hm (conj H0 H1))|].
  split; [exact Hmade | exact (Hresp H1)].
Defined.

(** ** Permanent delete: [DELETE /api/trash/:id] *)

(** Writing the same children twice is writing them once. *)
Lemma set_children_twice (d : database) (r : ref) (c1 c2 : gmap string record) :
  set_children (set_children d r c1) r c2 = set_children d r c2.
Proof.
  destruct r as [u []]; unfold set_children, node_of; simpl;
    rewrite lookup_insert_eq; simpl; apply insert_insert_eq.
Qed.

(** The permanent delete on a key, once and twice. *)
Lemma delete_trash_id_spec (e1 e2 : env) (d : database)
    (user : decoded_token) (req : request) :
  let u := uid user in
  let id := params_id req in
  let first := run (delete_trash_id user req) e1 d in
  let second := run (delete_trash_id user req) e2 (db first.2) in
  rejects e1 0%nat = None →
  rejects e2 0%nat = None →
  response_of first = Some (res_json ok_body) ∧
  children (db first.2) (trashRef u) = delete id (children d (trashRef u)) ∧
  children (db first.2) (trashRef u) !! id = None ∧
  children (db first.2) (notesRef u) = children d (notesRef u) ∧
  (children d (trashRef u) !! id = None →
   children (db first.2) (trashRef u) = children d (trashRef u)) ∧
  response_of second = Some (res_json ok_body) ∧
  db second.2 = db first.2.
Proof.
  intros u id first second H1 H2. subst second first u id. exec.
  rewrite H1. simpl. rewrite H2. simpl. children_simpl.
  split_and!; try done.
  - apply lookup_delete_eq.
  - intros Hmiss. by apply delete_id.
  - by rewrite set_children_twice, delete_delete_eq.
Qed.

(** ** Create: [POST /api/notes] *)

Lemma post_notes_run (e : env) (d : database) (user : decoded_token)
    (req : request) :
  let u := uid user in
  let note := new_note (body req) (clock e 0%nat) (clock e 1%nat) in
  let out := run (post_notes user req) e d in
  rejects e 0%nat = None →
  response_of out = Some (res_json (JObj (with_id (push_key e) note))) ∧
  children (db out.2) (notesRef u)
  = <[ push_key e := note ]> (children d (notesRef u)) ∧
  children (db out.2) (trashRef u) = children d (trashRef u).
Proof.
  intros u note out H0. subst out note u. exec. rewrite H0. simpl.
  by children_simpl.
Qed.

Lemma new_note_dom (b : record) (t1 t2 : Z) :
  dom (new_note b t1 t2)
  = ({[ "text"; "file"; "createdAt"; "updatedAt" ]} : gset string).
Proof.
  unfold new_note. rewrite !dom_insert_L, dom_empty_L. set_solver.
Qed.

(** ** Owner isolation *)

(** With a verified token the route is its handler, run as the token's user. *)
Lemma serve_as_user (r : route) (req : request) (e : env) (w : world)
    (user : decoded_token) :
  verified_user e req = Some user →
  serve r req e w = handler r user req e w.
Proof.
  unfold verified_user, serve, verifyTokenMiddleware.
  destruct (String.prefix _ _); simpl; [|done].
  destruct (verifyIdToken e _) as [dec|]; simpl; [|done].
  by intros [= <-].
Qed.

(** Without one the route answers 401 and issues no store call. *)
Lemma serve_unauthenticated (r : route) (req : request) (e : env) (w : world) :
  verified_user e req = None →
  serve r req e w
  = (Returned (res_status_json 401 (error_body
       (if String.prefix "Bearer " (default "" (authorization req))
        then "Invalid token" else "No token provided"))), w).
Proof.
  unfold verified_user, serve, verifyTokenMiddleware.
  destruct (String.prefix _ _); simpl; [|done].
  by destruct (verifyIdToken e _) as [dec|].
Qed.

(** A handler leaves the nodes of the other users as they are. *)
Lemma handler_frame (r : route) (user : decoded_token) (req : request)
    (e : env) (w : world) (B : string) :
  uid user ≠ B →
  node_of (db (handler r user req e w).2) B = node_of (db w) B.
Proof.
  intros Hne. destruct r; simpl; exec_all;
    rewrite ?node_of_set_children_ne by (simpl; done); done.
Qed.

(** A handler addresses only locations of the user it runs as. *)
Lemma handler_log (r : route) (user : decoded_token) (req : request)
    (e : env) (w : world) (op : io_op) (ok : bool) :
  (op, ok) ∈ io_log (handler r user req e w).2 →
  (op, ok) ∈ io_log w ∨ ref_uid (op_ref op) = uid user.
Proof.
  destruct r; simpl; exec_all;
    rewrite ?elem_of_app, ?list_elem_of_singleton;
    intros Hin; decompose [or] Hin; simplify_eq; auto.
Qed.

(** What a handler answers and leaves in its user's node depends on
    the database through that node only. *)
Lemma handler_depends (r : route) (user : decoded_token) (req : request)
    (e : env) (d1 d2 : database) (log : list (io_op * bool)) (n : nat) :
  node_of d1 (uid user) = node_of d2 (uid user) →
  let o1 := handler r user req e (World d1 log n) in
  let o2 := handler r user req e (World d2 log n) in
  o1.1 = o2.1 ∧ node_of (db o1.2) (uid user) = node_of (db o2.2) (uid user).
Proof.
  intros H.
  assert (Hn : children d1 (notesRef (uid user)) = children d2 (notesRef (uid user)))
    by (by apply node_of_children).
  assert (Ht : children d1 (trashRef (uid user)) = children d2 (trashRef (uid user)))
    by (by apply node_of_children).
  destruct r; simpl; exec;
    repeat first [ progress children_simpl | progress rewrite ?Hn, ?Ht
                 | step_store | step_lookup ];
    (split; [done|]);
    repeat (apply (node_of_set_children_eq _ _ (notesRef (uid user)))
            || apply (node_of_set_children_eq _ _ (trashRef (uid user))));
    done.
Qed.

(** C8. Every route acts as the owner of the verified token and as
    nobody else: it leaves the active notes and the trash of every
    other user as they were, each store call it issues addresses a
    location of that owner, and its answer and the owner's node
    afterwards are the same for any two databases that agree on the
    owner's node.  The owner is read off the [Authorization] header
    alone, so nothing in the body or the path can select another
    user's collections. *)
Theorem owner_isolation (r : route) (req : request) (e : env) :
  (∀ (d : database) (B : string),
     owner_of e req ≠ Some B →
     node_of (db (run (serve r req) e d).2) B = node_of d B) ∧
  (∀ (d : database) (op : io_op) (ok : bool),
     (op, ok) ∈ io_log (run (serve r req) e d).2 →
     owner_of e req = Some (ref_uid (op_ref op))) ∧
  (∀ d1 d2 : database,
     (∀ A, owner_of e req = Some A → node_of d1 A = node_of d2 A) →
     (run (serve r req) e d1).1 = (run (serve r req) e d2).1 ∧
     (∀ A, owner_of e req = Some A →
        node_of (db (run (serve r req) e d1).2) A
        = node_of (db (run (serve r req) e d2).2) A)) ∧
  (∀ req' : request,
     authorization req' = authorization req →
     owner_of e req' = owner_of e req).
Proof.
  unfold owner_of, run.
  destruct (verified_user e req) as [user|] eqn:Hv; simpl.
  - split_and!.
    + intros d B HB. rewrite (serve_as_user r req e _ user Hv).
      apply (handler_frame r user req e (World d [] 0) B). congruence.
    + intros d op ok. rewrite (serve_as_user r req e _ user Hv).
      intros Hin. apply handler_log in Hin as [Hin|Hin]; simpl in Hin.
      * by apply elem_of_nil in Hin.
      * by rewrite Hin.
    + intros d1 d2 Hagree. rewrite !(serve_as_user r req e _ user Hv).
      destruct (handler_depends r user req e d1 d2 [] 0 (Hagree _ eq_refl))
        as [Hresp Hnode].
      split; [exact Hresp|]. by intros A [= <-].
    + intros req' Hauth. unfold verified_user in *. rewrite Hauth.
      by rewrite Hv.
  - split_and!.
    + intros d B _. by rewrite (serve_unauthenticated r req e _ Hv).
    + intros d op ok. rewrite (serve_unauthenticated r req e _ Hv).
      simpl. intros Hin. by apply elem_of_nil in Hin.
    + intros d1 d2 _. split; [|done].
      by rewrite !(serve_unauthenticated r req e _ Hv).
    + intros req' Hauth. unfold verified_user in *. rewrite Hauth.
      by rewrite Hv.
Qed.

Lemma owner_isolation_witness :
  let both : database := set_children db_note (notesRef "bob") {[ "b1" := milk ]} in
  let aimed : record := <[ "uid" := JStr "bob" ]> {[ "text" := JStr "mine now" ]} in
  let req := Request (Some "Bearer tok-alice") "b1" aimed in
  let out := run (serve PUT_notes_id req) (quiet "k") both in
  (owner_of (quiet "k") req = Some "alice" ∧
   owner_of (quiet "k") req ≠ Some "bob") ∧
  node_of (db out.2) "bob" = node_of both "bob" ∧
  children (db out.2) (notesRef "bob") !! "b1" = Some milk.
Proof.
  intros both aimed req out.
  assert (Ha : owner_of (quiet "k") req = Some "alice") by reflexivity.
  assert (Hb : owner_of (quiet "k") req ≠ Some "bob") by (rewrite Ha; discriminate).
  destruct (owner_isolation PUT_notes_id req (quiet "k")) as (Hframe & _).
  pose proof (Hframe both "bob" Hb) as Hbob.
  split; [exact (conj Ha Hb)|]. split; [exact Hbob|].
  change (notes (node_of (db out.2) "bob") !! "b1" = Some milk).
  unfold out. rewrite Hbob. reflexivity.
Defined.

(** ** The bearer token, from the client's header to the handler *)

Lemma prefix_app (p s : string) : String.prefix p (p ++ s) = true.
Proof.
  induction p as [|c p IH]; simpl; [by destruct s|].
  destruct (Ascii.ascii_dec c c); [exact IH|congruence].
Qed.

Lemma substring_all (s : string) : String.substring 0 (String.length s) s = s.
Proof. induction s as [|c s IH]; simpl; [done|by rewrite IH]. Qed.

Lemma before_sep_length (sep s : string) :
  (String.length (before_sep sep s) ≤ String.length s)%nat.
Proof.
  induction s as [|c s IH]; cbn [before_sep String.length]; [done|].
  destruct (String.prefix sep (String c s)); cbn [String.length]; lia.
Qed.

(** Nothing is cut off exactly when the separator does not occur. *)
Lemma before_sep_all (sep s : string) :
  sep ≠ "" → (before_sep sep s = s ↔ has_sep sep s = false).
Proof.
  intros Hsep. induction s as [|c s IH]; cbn [before_sep has_sep].
  - split; [|done]. intros _. destruct sep; [done|reflexivity].
  - destruct (String.prefix sep (String c s)) eqn:Hp; cbn [orb].
    + split; discriminate.
    + rewrite <- IH. split; [by intros [= ->]|by intros ->].
Qed.

(** X3. For a header ['Bearer ' + t], the middleware finds the prefix
    it looks for and passes to the identity service what precedes the
    first further ['Bearer '] in [t]: that is [t] itself exactly when
    ['Bearer '] does not occur in [t], and a strictly shorter string
    otherwise. *)
Theorem bearer_token_round_trip (t : string) :
  String.prefix "Bearer " ("Bearer " ++ t) = true ∧
  bearer_token ("Bearer " ++ t) = before_sep "Bearer " t ∧
  (bearer_token ("Bearer " ++ t) = t ↔ has_sep "Bearer " t = false) ∧
  (has_sep "Bearer " t = true →
   (String.length (bearer_token ("Bearer " ++ t)) < String.length t)%nat).
Proof.
  assert (Hb : bearer_token ("Bearer " ++ t) = before_sep "Bearer " t).
  { unfold bearer_token. simpl. by rewrite Nat.sub_0_r, substring_all. }
  split_and!.
  - apply prefix_app.
  - exact Hb.
  - rewrite Hb. by apply before_sep_all.
  - rewrite Hb. clear Hb. induction t as [|c t IH]; [discriminate|].
    intros Hs. cbn [has_sep] in Hs. cbn [before_sep].
    destruct (String.prefix "Bearer " (String c t)) eqn:Hp;
      [cbn [String.length]; lia|].
    cbn [orb] in Hs. specialize (IH Hs). cbn [String.length]. lia.
Qed.

Lemma bearer_token_round_trip_witness :
  has_sep "Bearer " "tok-alice Bearer tok-bob" = true ∧
  has_sep "Bearer " "tok-alice" = false ∧
  bearer_token ("Bearer " ++ "tok-alice") = "tok-alice" ∧
  (String.length (bearer_token ("Bearer " ++ "tok-alice Bearer tok-bob")) < 24)%nat.
Proof.
  assert (H1 : has_sep "Bearer " "tok-alice Bearer tok-bob" = true) by reflexivity.
  assert (H2 : has_sep "Bearer " "tok-alice" = false) by reflexivity.
  destruct (bearer_token_round_trip "tok-alice") as (_ & _ & Hiff & _).
  destruct (bearer_token_round_trip "tok-alice Bearer tok-bob") as (_ & _ & _ & Hcut).
  exact (conj H1 (conj H2 (conj (proj2 Hiff H2) (Hcut H1)))).
Defined.

(** X1. A request whose [Authorization] header is missing or does
    not start with ['Bearer '], or whose token the identity service
    rejects, is answered 401 by every route ("No token provided" in
    the first case, "Invalid token" in the second) without a single
    store call, and the database is left as it was. *)
Theorem unverified_request_refused (r : route) (req : request) (e : env)
    (d : database) :
  let auth := default "" (authorization req) in
  let out := run (serve r req) e d in
  (String.prefix "Bearer " auth = false →
   response_of out = Some (res_status_json 401 (error_body "No token provided")) ∧
   io_log out.2 = [] ∧ db out.2 = d) ∧
  (String.prefix "Bearer " auth = true →
   verifyIdToken e (bearer_token auth) = None →
   response_of out = Some (res_status_json 401 (error_body "Invalid token")) ∧
   io_log out.2 = [] ∧ db out.2 = d).
Proof.
  intros auth out. subst auth out.
  unfold run, serve, verifyTokenMiddleware, response_of. split.
  - intros Hp. by rewrite Hp.
  - intros Hp Hv. rewrite Hp. cbn. by rewrite Hv.
Qed.

Lemma unverified_request_refused_witness :
  let bare := Request None "n1" ∅ in
  let forged := Request (Some "Bearer tok-carol") "n1" ∅ in
  (String.prefix "Bearer " (default "" (authorization bare)) = false ∧
   String.prefix "Bearer " (default "" (authorization forged)) = true ∧
   verifyIdToken (quiet "k")
     (bearer_token (default "" (authorization forged))) = None) ∧
  db (run (serve DELETE_notes_id bare) (quiet "k") db_note).2 = db_note ∧
  response_of (run (serve DELETE_notes_id forged) (quiet "k") db_note)
  = Some (res_status_json 401 (error_body "Invalid token")).
Proof.
  intros bare forged.
  assert (H1 : String.prefix "Bearer " (default "" (authorization bare)) = false)
    by reflexivity.
  assert (H2 : String.prefix "Bearer " (default "" (authorization forged)) = true)
    by reflexivity.
  assert (H3 : verifyIdToken (quiet "k")
                 (bearer_token (default "" (authorization forged))) = None)
    by reflexivity.
  destruct (unverified_request_refused DELETE_notes_id bare (quiet "k") db_note)
    as [Hbare _].
  destruct (unverified_request_refused DELETE_notes_id forged (quiet "k") db_note)
    as [_ Hforged].
  destruct (Hbare H1) as (_ & _ & Hdb).
  destruct (Hforged H2 H3) as (Hresp & _ & _).
  exact (conj (conj H1 (conj H2 H3)) (conj Hdb Hresp)).
Defined.

(** The header [apiFetch] builds from a clean token verifies as that token. *)
Lemma api_verified_user (e : env) (id : string) (b : record) (t : string)
    (dec : decoded_token) :
  t ≠ "" → has_sep "Bearer " t = false → verifyIdToken e t = Some dec →
  verified_user e (Request (api_authorization (Some t)) id b)
  = Some (Decoded (uid dec) (email dec)).
Proof.
  intros Ht Hsep Hdec. unfold verified_user, api_authorization, has_token.
  apply String.eqb_neq in Ht. rewrite Ht. simpl default.
  rewrite prefix_app.
  assert (Hb : bearer_token ("Bearer " ++ t) = t).
  { unfold bearer_token. simpl. rewrite Nat.sub_0_r, substring_all.
    by apply before_sep_all. }
  by rewrite Hb, Hdec.
Qed.

(** X2. What the client sends is what the server acts on.  With a
    non-empty [idToken] that contains no ['Bearer '] and that the
    identity service verifies, a request built by [apiFetch] is served
    by the route's handler running as the verified user, whatever the
    path id and the body; with no [idToken] (or an empty one)
    [apiFetch] sets no header and every route answers 401 "No token
    provided". *)
Theorem client_token_reaches_handler (r : route) (id : string) (b : record)
    (e : env) (w : world) (idToken : option string) :
  let req := Request (api_authorization idToken) id b in
  (∀ t dec,
     idToken = Some t → t ≠ "" → has_sep "Bearer " t = false →
     verifyIdToken e t = Some dec →
     serve r req e w = handler r (Decoded (uid dec) (email dec)) req e w) ∧
  (has_token idToken = false →
   serve r req e w
   = (Returned (res_status_json 401 (error_body "No token provided")), w)).
Proof.
  intros req. subst req. split.
  - intros t dec -> Ht Hsep Hdec.
    apply serve_as_user. by apply api_verified_user.
  - intros Hno. unfold api_authorization. rewrite Hno.
    by unfold serve, verifyTokenMiddleware.
Qed.

Lemma client_token_reaches_handler_witness :
  let sent := Request (api_authorization (Some "tok-alice")) "n1" ∅ in
  let anon := Request (api_authorization (Some "")) "n1" ∅ in
  ("tok-alice" ≠ "" ∧ has_sep "Bearer " "tok-alice" = false ∧
   verifyIdToken (quiet "t1") "tok-alice" = Some alice ∧
   has_token (Some "") = false) ∧
  serve DELETE_notes_id sent (quiet "t1") (World db_note [] 0)
  = delete_notes_id alice sent (quiet "t1") (World db_note [] 0) ∧
  serve DELETE_notes_id anon (quiet "t1") (World db_note [] 0)
  = (Returned (res_status_json 401 (error_body "No token provided")),
     World db_note [] 0).
Proof.
  intros sent anon.
  assert (H1 : "tok-alice" ≠ "") by discriminate.
  assert (H2 : has_sep "Bearer " "tok-alice" = false) by reflexivity.
  assert (H3 : verifyIdToken (quiet "t1") "tok-alice" = Some alice) by reflexivity.
  assert (H4 : has_token (Some "") = false) by reflexivity.
  destruct (client_token_reaches_handler DELETE_notes_id "n1" ∅ (quiet "t1")
              (World db_note [] 0) (Some "tok-alice")) as [Hyes _].
  destruct (client_token_reaches_handler DELETE_notes_id "n1" ∅ (quiet "t1")
              (World db_note [] 0) (Some "")) as [_ Hno].
  exact (conj (conj H1 (conj H2 (conj H3 H4)))
           (conj (Hyes "tok-alice" alice eq_refl H1 H2 H3) (Hno H4))).
Defined.

(** ** Listing: [GET /api/notes] and [GET /api/trash] *)

Lemma as_array_length (data : gmap string record) :
  length (as_array data) = size data.
Proof. unfold as_array. by rewrite length_fmap, length_map_to_list. Qed.

(** The answer of a listing route, for either collection. *)
Lemma get_list_response (e : env) (d : database) (user : decoded_token)
    (req : request) (c : collection) :
  let out :=
    run (match c with Notes => get_notes | Trash => get_trash end user req) e d in
  response_of out
  = Some (match rejects e 0%nat with
          | Some msg => res_status_json 500 (error_body msg)
          | None => res_json (JArr (as_array (children d (Ref (uid user) c))))
          end).
Proof. destruct c; exec; by destruct (rejects e 0). Qed.

(** X4. Listing never changes the database.  When the read is
    rejected the answer is 500 with the store's message; otherwise it
    is 200 with an array that has exactly one element per stored key,
    the record of that key spread after its [id], so an empty
    collection is listed as [[]], not as an error. *)
Theorem listing_is_a_snapshot (e : env) (d : database) (user : decoded_token)
    (req : request) (c : collection) :
  let r := Ref (uid user) c in
  let out :=
    run (match c with Notes => get_notes | Trash => get_trash end user req) e d in
  db out.2 = d ∧
  (∀ msg, rejects e 0%nat = Some msg →
     response_of out = Some (res_status_json 500 (error_body msg))) ∧
  (rejects e 0%nat = None →
   response_of out = Some (res_json (JArr (as_array (children d r)))) ∧
   length (as_array (children d r)) = size (children d r) ∧
   (∀ x, x ∈ as_array (children d r) ↔
         ∃ k rec, children d r !! k = Some rec ∧ x = JObj (with_id k rec)) ∧
   (children d r = ∅ → response_of out = Some (res_json (JArr [])))).
Proof.
  intros r out. subst r out.
  destruct c; exec; (destruct (rejects e 0) eqn:H0; simpl);
    (split_and!;
     [ done | intros msg' [= <-]; done | try done ]).
  all: intros _; split_and!;
    [ done | apply as_array_length | apply elem_of_as_array | ].
  all: intros Hempty;
    first [ change (children d (notesRef (uid user)) = ∅) in Hempty
          | change (children d (trashRef (uid user)) = ∅) in Hempty ];
    rewrite Hempty; unfold as_array; by rewrite map_to_list_empty.
Qed.

Lemma listing_is_a_snapshot_witness :
  let out := run (get_trash alice (as_alice "" ∅)) (quiet "k") db_note in
  let down := run (get_notes alice (as_alice "" ∅)) (failing_at 0 "k") db_note in
  (rejects (quiet "k") 0%nat = None ∧
   children db_note (Ref "alice" Trash) = ∅ ∧
   rejects (failing_at 0 "k") 0%nat = Some "unavailable") ∧
  response_of out = Some (res_json (JArr [])) ∧
  response_of down = Some (res_status_json 500 (error_body "unavailable")).
Proof.
  intros out down.
  assert (H0 : rejects (quiet "k") 0%nat = None) by reflexivity.
  assert (He : children db_note (Ref "alice" Trash) = ∅) by reflexivity.
  assert (Hf : rejects (failing_at 0 "k") 0%nat = Some "unavailable")
    by reflexivity.
  destruct (listing_is_a_snapshot (quiet "k") db_note alice (as_alice "" ∅) Trash)
    as (_ & _ & Hok).
  destruct (Hok H0) as (_ & _ & _ & Hempty).
  destruct (listing_is_a_snapshot (failing_at 0 "k") db_note alice
              (as_alice "" ∅) Notes) as (_ & Hdown & _).
  exact (conj (conj H0 (conj He Hf)) (conj (Hempty He) (Hdown _ Hf))).
Defined.

(** ** Failures and footprints *)



(** ** Sequences of requests *)

(** X11. Delete, then restore.  A note [N] that is soft-deleted and
    then restored (no store call rejected, both generated keys fresh)
    is back in the active collection under the new key with every
    field it had, and with [deletedAt] added; the old key is gone and
    the trash is again what it was before the delete. *)
Theorem delete_then_restore (e1 e2 : env) (d : database)
    (user : decoded_token) (req1 req2 : request) (N : record) :
  let u := uid user in
  let id := params_id req1 in
  let gone := run (delete_notes_id user req1) e1 d in
  let back := run (post_trash_restore_id user req2) e2 (db gone.2) in
  children d (notesRef u) !! id = Some N →
  (∀ k, rejects e1 k = None) → (∀ k, rejects e2 k = None) →
  children d (trashRef u) !! push_key e1 = None →
  params_id req2 = push_key e1 →
  children d (notesRef u) !! push_key e2 = None →
  succeeded gone ∧ succeeded back ∧
  children (db back.2) (notesRef u)
  = <[ push_key e2 := spread_then N "deletedAt" (JNum (clock e1 0%nat)) ]>
      (delete id (children d (notesRef u))) ∧
  children (db back.2) (notesRef u) !! id = None ∧
  (∃ note : record,
     children (db back.2) (notesRef u) !! push_key e2 = Some note ∧
     (∀ f, f ≠ "deletedAt" → note !! f = N !! f) ∧
     note !! "deletedAt" = Some (JNum (clock e1 0%nat))) ∧
  children (db back.2) (trashRef u) = children d (trashRef u).
Proof.
  intros u id gone back HN Hq1 Hq2 Hf1 Hid2 Hf2.
  subst back gone u id. unfold succeeded. exec.
  rewrite !Hq1. simpl. rewrite HN. simpl. rewrite !Hq1. simpl.
  rewrite !Hq2. simpl. children_simpl. rewrite Hid2.
  rewrite lookup_insert_eq. simpl. rewrite !Hq2. simpl. children_simpl.
  assert (Hne : push_key e2 ≠ params_id req1) by (intros Heq; congruence).
  split_and!; try done.
  - rewrite lookup_insert_ne by done. apply lookup_delete_eq.
  - eexists. split; [apply lookup_insert_eq|]. unfold spread_then. split.
    + intros f Hf. by rewrite lookup_insert_ne.
    + apply lookup_insert_eq.
  - by apply delete_insert_id.
Qed.

Lemma delete_then_restore_witness :
  let gone :=
    run (delete_notes_id alice (as_alice "n1" ∅)) (quiet "t1") db_note in
  let back :=
    run (post_trash_restore_id alice (as_alice "t1" ∅)) (quiet "n2")
        (db gone.2) in
  (children db_note (notesRef "alice") !! "n1" = Some milk ∧
   (∀ k, rejects (quiet "t1") k = None) ∧ (∀ k, rejects (quiet "n2") k = None) ∧
   children db_note (trashRef "alice") !! push_key (quiet "t1") = None ∧
   params_id (as_alice "t1" ∅) = push_key (quiet "t1") ∧
   children db_note (notesRef "alice") !! push_key (quiet "n2") = None) ∧
  children (db back.2) (notesRef "alice") !! "n1" = None ∧
  children (db back.2) (trashRef "alice") = ∅.
Proof.
  intros gone back.
  assert (H1 : children db_note (notesRef "alice") !! "n1" = Some milk)
    by reflexivity.
  assert (H2 : ∀ k, rejects (quiet "t1") k = None) by (intros k; reflexivity).
  assert (H3 : ∀ k, rejects (quiet "n2") k = None) by (intros k; reflexivity).
  assert (H4 : children db_note (trashRef "alice") !! push_key (quiet "t1") = None)
    by reflexivity.
  assert (H5 : params_id (as_alice "t1" ∅) = push_key (quiet "t1"))
    by reflexivity.
  assert (H6 : children db_note (notesRef "alice") !! push_key (quiet "n2") = None)
    by reflexivity.
  destruct (delete_then_restore (quiet "t1") (quiet "n2") db_note alice
              (as_alice "n1" ∅) (as_alice "t1" ∅) milk H1 H2 H3 H4 H5 H6)
    as (_ & _ & _ & Hgone & _ & Htrash).
  split; [exact (conj H1 (conj H2 (conj H3 (conj H4 (conj H5 H6)))))|].
  exact (conj Hgone (eq_trans Htrash eq_refl)).
Defined.

(** X12. A move cannot be repeated.  After a soft delete that
    answered 200, a second soft delete of the same id answers 404 as
    soon as its read completes, and changes nothing; the same holds for
    a second restore of the same trash id. *)
Theorem second_move_is_404 (e1 e2 : env) (d : database) (user : decoded_token)
    (req : request) :
  let gone := run (delete_notes_id user req) e1 d in
  let again := run (delete_notes_id user req) e2 (db gone.2) in
  let back := run (post_trash_restore_id user req) e1 d in
  let once_more := run (post_trash_restore_id user req) e2 (db back.2) in
  rejects e2 0%nat = None →
  (succeeded gone →
   response_of again = Some (res_status_json 404 (error_body "Note not found")) ∧
   db again.2 = db gone.2) ∧
  (succeeded back →
   response_of once_more
   = Some (res_status_json 404 (error_body "Trash item not found")) ∧
   db once_more.2 = db back.2).
Proof.
  intros gone again back once_more H0.
  subst gone again back once_more. unfold succeeded. split.
  - exec. destruct (rejects e1 0); simpl; [discriminate|].
    destruct (children d (notesRef (uid user)) !! params_id req); simpl;
      [|discriminate].
    destruct (rejects e1 1); simpl; [discriminate|].
    destruct (rejects e1 2); simpl; [discriminate|].
    intros _. rewrite H0. simpl. children_simpl.
    by rewrite lookup_delete_eq.
  - exec. destruct (rejects e1 0); simpl; [discriminate|].
    destruct (children d (trashRef (uid user)) !! params_id req); simpl;
      [|discriminate].
    destruct (rejects e1 1); simpl; [discriminate|].
    destruct (rejects e1 2); simpl; [discriminate|].
    intros _. rewrite H0. simpl. children_simpl.
    by rewrite lookup_delete_eq.
Qed.

Lemma second_move_is_404_witness :
  let gone :=
    run (delete_notes_id alice (as_alice "n1" ∅)) (quiet "t1") db_note in
  let again :=
    run (delete_notes_id alice (as_alice "n1" ∅)) (quiet "t2") (db gone.2) in
  (rejects (quiet "t2") 0%nat = None ∧ succeeded gone) ∧
  response_of again = Some (res_status_json 404 (error_body "Note not found")) ∧
  size (children (db again.2) (trashRef "alice")) = 1%nat.
Proof.
  intros gone again.
  assert (H0 : rejects (quiet "t2") 0%nat = None) by reflexivity.
  assert (Hs : succeeded gone) by reflexivity.
  destruct (second_move_is_404 (quiet "t1") (quiet "t2") db_note alice
              (as_alice "n1" ∅) H0) as [Hdel _].
  destruct (Hdel Hs) as [Hresp Hdb].
  split; [exact (conj H0 Hs)|]. split; [exact Hresp|].
  unfold again, gone. rewrite Hdb. reflexivity.
Defined.

(** ** File upload *)

Lemma append_assoc (a b c : string) : (a ++ b) ++ c = a ++ (b ++ c).
Proof.
  induction a as [|x a IH]; [reflexivity|].
  change (String x ((a ++ b) ++ c) = String x (a ++ (b ++ c))).
  by rewrite IH.
Qed.

(** Every destination lies under the uploading user's own prefix. *)
Lemma upload_destination_prefix (uid u name : string) :
  String.prefix ("users/" ++ uid ++ "/notes/") (upload_destination uid u name)
  = true.
Proof.
  unfold upload_destination.
  replace ("users/" ++ uid ++ "/notes/" ++ u ++ "_" ++ name)
    with (("users/" ++ uid ++ "/notes/") ++ (u ++ "_" ++ name)).
  - apply prefix_app.
  - by rewrite !append_assoc.
Qed.

(** The run of an upload in which nothing fails. *)
Lemma post_upload_ok (user : decoded_token) (f : upload_file)
    (e : upload_env) (s : storage) (data : string) :
  let dest := upload_destination (uid user) (uuidv4 e 0%nat) (originalname f) in
  uploads_dir s !! file_path f = Some data →
  upload_rejects e = None →
  signing_rejects e = None →
  post_upload user (Some f) e s
  = (res_json (JObj
       (<[ "name" := JStr (originalname f) ]>
       (<[ "mime" := JStr (mimetype f) ]>
       (<[ "size" := JNum (file_size f) ]>
       (<[ "url" := JStr (signed_url e dest) ]> ∅))))),
     Storage (delete (file_path f) (uploads_dir s))
       (<[ dest := Blob data (mimetype f) (uuidv4 e 1%nat) ]> (bucket s))).
Proof.
  intros dest Hfile Hup Hsign. subst dest.
  unfold post_upload, bucket_upload, unlinkSync. rewrite Hup, Hfile. simpl.
  by rewrite Hfile, Hsign.
Qed.

(** X13. A successful upload.  When the temporary file is there
    and neither the bucket nor the URL signing rejects, the content of
    the temporary file becomes one object of the bucket, with the
    file's MIME type, under a destination inside
    [users/<uid>/notes/]; the temporary file is deleted; and the
    answer is 200 with the file's original name, MIME type and size
    and the signed URL of that object. *)
Theorem upload_success (user : decoded_token) (f : upload_file)
    (e : upload_env) (s : storage) (data : string) :
  let dest := upload_destination (uid user) (uuidv4 e 0%nat) (originalname f) in
  let out := post_upload user (Some f) e s in
  uploads_dir s !! file_path f = Some data →
  upload_rejects e = None →
  signing_rejects e = None →
  (∃ o : record,
     out.1 = res_json (JObj o) ∧
     o !! "name" = Some (JStr (originalname f)) ∧
     o !! "mime" = Some (JStr (mimetype f)) ∧
     o !! "size" = Some (JNum (file_size f)) ∧
     o !! "url" = Some (JStr (signed_url e dest)) ∧
     dom o = ({[ "name"; "mime"; "size"; "url" ]} : gset string)) ∧
  bucket out.2 = <[ dest := Blob data (mimetype f) (uuidv4 e 1%nat) ]> (bucket s) ∧
  uploads_dir out.2 = delete (file_path f) (uploads_dir s) ∧
  uploads_dir out.2 !! file_path f = None ∧
  String.prefix ("users/" ++ uid user ++ "/notes/") dest = true.
Proof.
  intros dest out Hfile Hup Hsign. subst out dest.
  unfold post_upload, bucket_upload, unlinkSync. rewrite Hup, Hfile. simpl.
  rewrite Hfile, Hsign. simpl. split_and!.
  - eexists. split; [reflexivity|]. split_and!; reflexivity.
  - done.
  - done.
  - apply lookup_delete_eq.
  - apply upload_destination_prefix.
Qed.

Lemma upload_success_witness :
  let f := UploadFile "uploads/3f" "list.pdf" "application/pdf" 2048 in
  let e := UploadEnv (λ k, if Nat.eqb k 0 then "u0" else "u1") None "ENOENT" None
             (λ name, "https://signed/" ++ name) in
  let s := Storage {[ "uploads/3f" := "%PDF" ]} ∅ in
  let out := post_upload alice (Some f) e s in
  (uploads_dir s !! file_path f = Some "%PDF" ∧
   upload_rejects e = None ∧ signing_rejects e = None) ∧
  bucket out.2 !! "users/alice/notes/u0_list.pdf"
  = Some (Blob "%PDF" "application/pdf" "u1") ∧
  uploads_dir out.2 !! "uploads/3f" = None.
Proof.
  intros f e s out.
  assert (H1 : uploads_dir s !! file_path f = Some "%PDF") by reflexivity.
  assert (H2 : upload_rejects e = None) by reflexivity.
  assert (H3 : signing_rejects e = None) by reflexivity.
  destruct (upload_success alice f e s "%PDF" H1 H2 H3)
    as (_ & Hb & _ & Hgone & _).
  split; [exact (conj H1 (conj H2 H3))|]. split; [|exact Hgone].
  unfold out. rewrite Hb. reflexivity.
Defined.

(** X14. Failed uploads leave things behind.  When the bucket
    rejects the upload the answer is 500 and the temporary file is
    still in [uploads/]: it is only unlinked after a completed
    upload.  When the upload completed and the URL signing is rejected
    the answer is 500 as well, although the object is in the bucket
    (and the temporary file is gone). *)
Theorem upload_failures (user : decoded_token) (f : upload_file)
    (e : upload_env) (s : storage) (data msg : string) :
  let dest := upload_destination (uid user) (uuidv4 e 0%nat) (originalname f) in
  let out := post_upload user (Some f) e s in
  uploads_dir s !! file_path f = Some data →
  (upload_rejects e = Some msg →
   out.1 = res_status_json 500 (error_body msg) ∧
   out.2 = s ∧
   uploads_dir out.2 !! file_path f = Some data) ∧
  (upload_rejects e = None → signing_rejects e = Some msg →
   out.1 = res_status_json 500 (error_body msg) ∧
   bucket out.2 !! dest = Some (Blob data (mimetype f) (uuidv4 e 1%nat)) ∧
   uploads_dir out.2 !! file_path f = None).
Proof.
  intros dest out Hfile. subst out dest.
  unfold post_upload, bucket_upload, unlinkSync. split.
  - intros ->. done.
  - intros -> Hsign. rewrite Hfile. simpl. rewrite Hfile, Hsign. simpl.
    split_and!; [done | apply lookup_insert_eq | apply lookup_delete_eq].
Qed.

Lemma upload_failures_witness :
  let f := UploadFile "uploads/3f" "list.pdf" "application/pdf" 2048 in
  let down := UploadEnv (λ _, "u0") (Some "bucket down") "ENOENT" None (λ n, n) in
  let unsigned :=
    UploadEnv (λ _, "u0") None "ENOENT" (Some "cannot sign") (λ n, n) in
  let s := Storage {[ "uploads/3f" := "%PDF" ]} ∅ in
  (uploads_dir s !! file_path f = Some "%PDF" ∧
   upload_rejects down = Some "bucket down" ∧
   upload_rejects unsigned = None ∧
   signing_rejects unsigned = Some "cannot sign") ∧
  uploads_dir (post_upload alice (Some f) down s).2 !! "uploads/3f" = Some "%PDF" ∧
  (post_upload alice (Some f) unsigned s).1
  = res_status_json 500 (error_body "cannot sign") ∧
  bucket (post_upload alice (Some f) unsigned s).2 !! "users/alice/notes/u0_list.pdf"
  = Some (Blob "%PDF" "application/pdf" "u0").
Proof.
  intros f down unsigned s.
  assert (H1 : uploads_dir s !! file_path f = Some "%PDF") by reflexivity.
  assert (H2 : upload_rejects down = Some "bucket down") by reflexivity.
  assert (H3 : upload_rejects unsigned = None) by reflexivity.
  assert (H4 : signing_rejects unsigned = Some "cannot sign") by reflexivity.
  destruct (upload_failures alice f down s "%PDF" "bucket down" H1) as [Hdown _].
  destruct (upload_failures alice f unsigned s "%PDF" "cannot sign" H1)
    as [_ Hsign].
  destruct (Hdown H2) as (_ & _ & Hleft).
  destruct (Hsign H3 H4) as (Hresp & Hblob & _).
  exact (conj (conj H1 (conj H2 (conj H3 H4))) (conj Hleft (conj Hresp Hblob))).
Defined.

(** ** The client's lists and buttons *)

(** X16. What the client holds after [fetchNotes] or [fetchTrash].
    With a token that reaches the handler, the client's list is the
    server's listing of the user's collection when the store read
    completes, and the empty list when the read is rejected, although
    the collection may well have entries; it is also empty when
    [fetch] itself fails, and without a token. *)
Theorem client_list_follows_store (e : env) (d : database) (c : collection)
    (id : string) (b : record) (idToken : option string) :
  let req := Request (api_authorization idToken) id b in
  let route := match c with Notes => GET_notes | Trash => GET_trash end in
  let res := response_of (run (serve route req) e d) in
  (∀ t dec,
     idToken = Some t → t ≠ "" → has_sep "Bearer " t = false →
     verifyIdToken e t = Some dec →
     (rejects e 0%nat = None →
      fetch_list idToken res = JArr (as_array (children d (Ref (uid dec) c)))) ∧
     (∀ msg, rejects e 0%nat = Some msg → fetch_list idToken res = JArr [])) ∧
  fetch_list idToken None = JArr [] ∧
  (has_token idToken = false → ∀ res', fetch_list idToken res' = JArr []).
Proof.
  intros req route res. split_and!.
  - intros t dec Ht Hne Hsep Hdec. subst idToken.
    pose proof (serve_as_user route req e (World d [] 0) _
                  (api_verified_user e id b t dec Hne Hsep Hdec)) as Hserve.
    assert (Htok : has_token (Some t) = true).
    { simpl. apply String.eqb_neq in Hne. by rewrite Hne. }
    unfold fetch_list. rewrite Htok. subst res. unfold run. rewrite Hserve.
    pose proof (get_list_response e d (Decoded (uid dec) (email dec)) req c)
      as Hresp.
    unfold run in Hresp. subst route. split.
    + intros H0. rewrite H0 in Hresp.
      destruct c; simpl in *; by rewrite Hresp.
    + intros msg H0. rewrite H0 in Hresp.
      destruct c; simpl in *; by rewrite Hresp.
  - unfold fetch_list. by destruct (has_token idToken).
  - intros Hno res'. unfold fetch_list. by rewrite Hno.
Qed.

Lemma client_list_follows_store_witness :
  let req := Request (api_authorization (Some "tok-alice")) "" ∅ in
  ("tok-alice" ≠ "" ∧ has_sep "Bearer " "tok-alice" = false ∧
   verifyIdToken (failing_at 0 "k") "tok-alice" = Some alice ∧
   rejects (failing_at 0 "k") 0%nat = Some "unavailable") ∧
  size (children db_note (notesRef "alice")) = 1%nat ∧
  fetch_list (Some "tok-alice")
    (response_of (run (serve GET_notes req) (failing_at 0 "k") db_note))
  = JArr [].
Proof.
  intros req.
  assert (H1 : "tok-alice" ≠ "") by discriminate.
  assert (H2 : has_sep "Bearer " "tok-alice" = false) by reflexivity.
  assert (H3 : verifyIdToken (failing_at 0 "k") "tok-alice" = Some alice)
    by reflexivity.
  assert (H4 : rejects (failing_at 0 "k") 0%nat = Some "unavailable")
    by reflexivity.
  destruct (client_list_follows_store (failing_at 0 "k") db_note Notes "" ∅
              (Some "tok-alice")) as [Hlist _].
  destruct (Hlist "tok-alice" alice eq_refl H1 H2 H3) as [_ Hdown].
  split; [exact (conj H1 (conj H2 (conj H3 H4)))|].
  split; [reflexivity|]. exact (Hdown _ H4).
Defined.






(** X18. Importing a file.  After a successful upload the client
    creates a note from the upload's answer, and once that create
    completed the stored note has the file's original name as [text]
    and the whole answer (name, MIME type, size and signed URL) as
    [file].  When the upload is answered 500, or [fetch] fails, no
    create request is sent at all. *)
Theorem import_links_upload (user : decoded_token) (f : upload_file)
    (ue : upload_env) (s : storage) (data : string) (idToken : option string)
    (e : env) (d : database) (id : string) (auth : option string) :
  let dest := upload_destination (uid user) (uuidv4 ue 0%nat) (originalname f) in
  let up := post_upload user (Some f) ue s in
  has_token idToken = true →
  uploads_dir s !! file_path f = Some data →
  (upload_rejects ue = None → signing_rejects ue = None →
   rejects e 0%nat = None →
   ∃ (b o note : record),
     handleFileImport idToken (Some up.1) = Some b ∧
     children (db (run (post_notes user (Request auth id b)) e d).2)
       (notesRef (uid user)) !! push_key e = Some note ∧
     note !! "text" = Some (JStr (originalname f)) ∧
     note !! "file" = Some (JObj o) ∧
     o !! "url" = Some (JStr (signed_url ue dest)) ∧
     o !! "name" = Some (JStr (originalname f))) ∧
  (status up.1 = 500%nat → handleFileImport idToken (Some up.1) = None) ∧
  handleFileImport idToken None = None.
Proof.
  intros dest up Htok Hfile. subst up dest. split_and!.
  - intros Hup Hsign H0.
    rewrite (post_upload_ok user f ue s data Hfile Hup Hsign). cbn [fst].
    set (o := <[ "name" := JStr (originalname f) ]> _).
    assert (Hname : o !! "name" = Some (JStr (originalname f)))
      by apply lookup_insert_eq.
    assert (Hurl : o !! "url"
                   = Some (JStr (signed_url ue
                        (upload_destination (uid user) (uuidv4 ue 0%nat)
                           (originalname f))))).
    { subst o. rewrite !lookup_insert_ne by done. apply lookup_insert_eq. }
    set (b := <[ "text" := JStr (originalname f) ]>
                ({[ "file" := JObj o ]} : record)).
    assert (Hb : handleFileImport idToken (Some (res_json (JObj o))) = Some b).
    { unfold handleFileImport, apiFetch. rewrite Htok. cbn -[o].
      by rewrite Hname. }
    exists b, o.
    destruct (post_notes_run e d user (Request auth id b) H0) as (_ & Hnotes & _).
    eexists. split; [exact Hb|]. split; [rewrite Hnotes; apply lookup_insert_eq|].
    cbn [body]. unfold new_note, prop_or.
    assert (Htext : b !! "text" = Some (JStr (originalname f)))
      by apply lookup_insert_eq.
    assert (Hfileb : b !! "file" = Some (JObj o)).
    { subst b. rewrite lookup_insert_ne by done. apply lookup_singleton_eq. }
    rewrite Htext, Hfileb. split_and!; [| |exact Hurl|exact Hname].
    + rewrite lookup_insert_eq. cbn [truthy].
      destruct (String.eqb (originalname f) "") eqn:Hn; cbn [negb]; [|done].
      apply String.eqb_eq in Hn. by rewrite Hn.
    + rewrite lookup_insert_ne by done. by rewrite lookup_insert_eq.
  - unfold handleFileImport, apiFetch, res_ok. rewrite Htok.
    intros ->. reflexivity.
  - unfold handleFileImport. by rewrite Htok.
Qed.

Lemma import_links_upload_witness :
  let f := UploadFile "uploads/3f" "list.pdf" "application/pdf" 2048 in
  let ue := UploadEnv (λ _, "u0") None "ENOENT" None (λ n, "https://signed/" ++ n) in
  let s := Storage {[ "uploads/3f" := "%PDF" ]} ∅ in
  let up := post_upload alice (Some f) ue s in
  (has_token (Some "tok-alice") = true ∧
   uploads_dir s !! file_path f = Some "%PDF" ∧
   upload_rejects ue = None ∧ signing_rejects ue = None ∧
   rejects (quiet "n2") 0%nat = None) ∧
  ∃ (b note : record),
    handleFileImport (Some "tok-alice") (Some up.1) = Some b ∧
    children (db (run (post_notes alice (as_alice "" b)) (quiet "n2") db_note).2)
      (notesRef "alice") !! "n2" = Some note ∧
    note !! "text" = Some (JStr "list.pdf").
Proof.
  intros f ue s up.
  assert (H1 : has_token (Some "tok-alice") = true) by reflexivity.
  assert (H2 : uploads_dir s !! file_path f = Some "%PDF") by reflexivity.
  assert (H3 : upload_rejects ue = None) by reflexivity.
  assert (H4 : signing_rejects ue = None) by reflexivity.
  assert (H5 : rejects (quiet "n2") 0%nat = None) by reflexivity.
  destruct (import_links_upload alice f ue s "%PDF" (Some "tok-alice")
              (quiet "n2") db_note "" (Some "Bearer tok-alice") H1 H2)
    as (Hok & _ & _).
  destruct (Hok H3 H4 H5) as (b & o & note & Hb & Hnote & Htext & _).
  split; [exact (conj H1 (conj H2 (conj H3 (conj H4 H5))))|].
  exists b, note. exact (conj Hb (conj Hnote Htext)).
Defined.

(** ** The SDK in front of the store *)

Lemma drop_nulls_lookup (o : record) (f : string) (v : json) :
  drop_nulls o !! f = Some v ↔ o !! f = Some v ∧ is_null v = false.
Proof. unfold drop_nulls. by rewrite map_lookup_filter_Some. Qed.

Lemma drop_nulls_kept (o : record) (f : string) (v : json) :
  o !! f = Some v → is_null v = false → drop_nulls o !! f = Some v.
Proof. intros. by apply drop_nulls_lookup. Qed.

Lemma drop_nulls_dropped (o : record) (f : string) :
  (∀ v, o !! f = Some v → is_null v = true) → drop_nulls o !! f = None.
Proof.
  intros H. destruct (drop_nulls o !! f) as [v|] eqn:Hv; [|done].
  apply drop_nulls_lookup in Hv as [Hv Hn]. rewrite (H v Hv) in Hn. done.
Qed.

Lemma merge_update_given (u old : record) (f : string) (v : json) :
  u !! f = Some v → is_null v = false → merge_update u old !! f = Some v.
Proof.
  intros Hu Hv. unfold merge_update. apply lookup_union_Some_l.
  by apply drop_nulls_kept.
Qed.

Lemma merge_update_removed (u old : record) (f : string) (v : json) :
  u !! f = Some v → is_null v = true → merge_update u old !! f = None.
Proof.
  intros Hu Hv. unfold merge_update. apply lookup_union_None. split.
  - apply drop_nulls_dropped. intros w Hw. congruence.
  - apply lookup_difference_None. right. by exists v.
Qed.

Lemma merge_update_absent (u old : record) (f : string) :
  u !! f = None → merge_update u old !! f = old !! f.
Proof.
  intros Hu. unfold merge_update. rewrite lookup_union_r.
  - rewrite lookup_difference. by rewrite Hu.
  - apply drop_nulls_dropped. intros v Hv. congruence.
Qed.

Lemma body_followed_lookup (b : record) (f : string) (v : json) :
  body_followed b = true → b !! f = Some v →
  field_key f = true ∧ property_followed v = true.
Proof.
  unfold body_followed. intros Hb Hf. apply bool_decide_eq_true in Hb.
  exact (Hb f v Hf).
Qed.

(** The [id] an element of a listing shows. *)
Lemma with_id_id (k : string) (r : record) :
  with_id k r !! "id" = Some (default (JStr k) (r !! "id")).
Proof.
  unfold with_id. rewrite lookup_union.
  destruct (r !! "id") as [w|]; simpl; [|by rewrite lookup_singleton_eq].
  by destruct ({[ "id" := JStr k ]} !! "id").
Qed.

(** No element of a listing shows [id] when the key [id] is not there
    and no stored record carries [id] as an [id] property of its own. *)
Lemma not_listed (data : gmap string record) (id : string) :
  data !! id = None →
  (∀ k r, data !! k = Some r → r !! "id" ≠ Some (JStr id)) →
  ∀ o : record, JObj o ∈ as_array data → o !! "id" ≠ Some (JStr id).
Proof.
  intros Hgone Hplain o Ho.
  apply elem_of_as_array in Ho as (k & r & Hk & [= ->]).
  rewrite with_id_id. destruct (r !! "id") as [w|] eqn:Hw; simpl.
  - intros [= ->]. by apply (Hplain k r Hk).
  - intros [= ->]. congruence.
Qed.

(** A refused id: the handler throws before its first store call. *)
Lemma guarded_refused (k : sdk_messages) (id : string) (h : M response)
    (e : env) (d : database) :
  path_kind_of id = PathRefused →
  ∃ m, guarded_by_id k id h = Some m ∧
       response_of (run m e d)
       = Some (res_status_json 500 (error_body (invalid_path k id))) ∧
       db (run m e d).2 = d ∧ io_log (run m e d).2 = [].
Proof. intros Hk. unfold guarded_by_id. rewrite Hk. by eexists. Qed.

Lemma guarded_key (k : sdk_messages) (id : string) (h : M response) :
  path_kind_of id = PathKey → guarded_by_id k id h = Some h.
Proof. intros Hk. unfold guarded_by_id. by rewrite Hk. Qed.

(** ** Soft delete, restated with the SDK *)




(** ** Restore, restated with the SDK *)




(** ** Permanent delete, restated with the SDK *)

(** C6 as stated fails. A permanent delete of an id with a dot in
    it is answered 500, not [{ok: true}], although no store call is
    rejected: the SDK refuses the id. *)
Lemma permanent_delete_of_dotted_id :
  let req := as_alice "t.1" ∅ in
  (∀ j, rejects (quiet "k") j = None) ∧
  ∃ m, sdk_handler terse DELETE_trash_id alice req = Some m ∧
       response_of (run m (quiet "k") db_binned)
       = Some (res_status_json 500 (error_body "invalid path t.1")) ∧
       response_of (run m (quiet "k") db_binned) ≠ Some (res_json ok_body).
Proof.
  split; [intros j; reflexivity|].
  eexists. split; [reflexivity|]. split; [reflexivity|discriminate].
Qed.

(** C6, amended. For an id that is one key, whether or not a trash
    entry is stored under it, a permanent delete whose removal call is
    not rejected answers 200 [{ok: true}], leaves the trash without
    that key (and otherwise as it was, the active notes included), so
    that a later listing of the trash has no element made from the
    key, and shows the id on none of its elements unless another
    stored record carries it as an [id] property of its own; a second
    call with the same id answers [{ok: true}] again and changes
    nothing.  For an id the SDK refuses, every call is answered 500
    and nothing is written. *)
Theorem permanent_delete_idempotent (k : sdk_messages) (e1 e2 : env)
    (d : database) (user : decoded_token) (req : request) :
  let u := uid user in
  let id := params_id req in
  (path_kind_of id = PathKey →
   rejects e1 0%nat = None →
   rejects e2 0%nat = None →
   ∃ m, sdk_handler k DELETE_trash_id user req = Some m ∧
   let first := run m e1 d in
   let second := run m e2 (db first.2) in
   response_of first = Some (res_json ok_body) ∧
   children (db first.2) (trashRef u) = delete id (children d (trashRef u)) ∧
   children (db first.2) (trashRef u) !! id = None ∧
   children (db first.2) (notesRef u) = children d (notesRef u) ∧
   (children d (trashRef u) !! id = None →
    children (db first.2) (trashRef u) = children d (trashRef u)) ∧
   (∀ x, x ∈ as_array (children (db first.2) (trashRef u)) →
      ∃ k' r, k' ≠ id ∧ children d (trashRef u) !! k' = Some r
              ∧ x = JObj (with_id k' r)) ∧
   ((∀ k' r, children d (trashRef u) !! k' = Some r →
             r !! "id" ≠ Some (JStr id)) →
    ∀ o : record, JObj o ∈ as_array (children (db first.2) (trashRef u)) →
                  o !! "id" ≠ Some (JStr id)) ∧
   response_of second = Some (res_json ok_body) ∧
   db second.2 = db first.2) ∧
  (path_kind_of id = PathRefused →
   ∃ m, sdk_handler k DELETE_trash_id user req = Some m ∧
        response_of (run m e1 d)
        = Some (res_status_json 500 (error_body (invalid_path k id))) ∧
        db (run m e1 d).2 = d ∧ io_log (run m e1 d).2 = []).
Proof.
  intros u id. split.
  - intros Hkey H1 H2. exists (delete_trash_id user req).
    split; [by apply guarded_key|]. intros first second.
    destruct (delete_trash_id_spec e1 e2 d user req H1 H2)
      as (Hr1 & Htrash & Hgone & Hnotes & Hmiss & Hr2 & Hsame).
    fold u id first second in Hr1, Htrash, Hgone, Hnotes, Hmiss, Hr2, Hsame.
    split_and!; try done.
    + intros x Hx. rewrite Htrash in Hx.
      apply elem_of_as_array in Hx as (k' & r & Hk & ->).
      apply lookup_delete_Some in Hk as [Hne Hk]. eauto.
    + intros Hplain. apply not_listed; [done|].
      intros k' r. rewrite Htrash. intros Hk.
      apply lookup_delete_Some in Hk as [_ Hk]. by apply (Hplain k').
  - intros Hbad. by apply guarded_refused.
Qed.

Lemma permanent_delete_idempotent_witness :
  let req := as_alice "t1" ∅ in
  (path_kind_of "t1" = PathKey ∧ rejects (quiet "k") 0%nat = None) ∧
  ∃ m, sdk_handler terse DELETE_trash_id alice req = Some m ∧
       response_of (run m (quiet "k") db_binned) = Some (res_json ok_body) ∧
       children (db (run m (quiet "k") db_binned).2) (trashRef "alice") !! "t1"
       = None ∧
       response_of (run m (quiet "k") (db (run m (quiet "k") db_binned).2))
       = Some (res_json ok_body).
Proof.
  intros req.
  assert (K1 : path_kind_of "t1" = PathKey) by reflexivity.
  assert (H0 : rejects (quiet "k") 0%nat = None) by reflexivity.
  destruct (permanent_delete_idempotent terse (quiet "k") (quiet "k") db_binned
              alice req) as [Hkey _].
  destruct (Hkey K1 H0 H0) as (m & Hm & Hr1 & _ & Hgone & _ & _ & _ & _ & Hr2 & _).
  split; [exact (conj K1 H0)|].
  exists m. exact (conj Hm (conj Hr1 (conj Hgone Hr2))).
Defined.

(** ** Update, restated with the SDK *)

(** The run of an update on a key with a followed body. *)
Lemma sdk_put_run (k : sdk_messages) (e : env) (d : database)
    (user : decoded_token) (req : request) :
  let u := uid user in
  let id := params_id req in
  let stored :=
    merge_update (spread_then (body req) "updatedAt" (JNum (clock e 0%nat)))
      (default ∅ (children d (notesRef u) !! id)) in
  path_kind_of id = PathKey →
  body_followed (body req) = true →
  ∃ m, sdk_put_notes_id k user req = Some m ∧
  let out := run m e d in
  (rejects e 0%nat = None →
   children (db out.2) (notesRef u) = <[ id := stored ]> (children d (notesRef u)) ∧
   children (db out.2) (trashRef u) = children d (trashRef u)) ∧
  (∀ msg, rejects e 0%nat = Some msg →
     response_of out = Some (res_status_json 500 (error_body msg)) ∧
     db out.2 = d) ∧
  (rejects e 0%nat = None → rejects e 1%nat = None →
   response_of out = Some (res_json (JObj (with_id id stored)))) ∧
  (rejects e 0%nat = None → ∀ msg, rejects e 1%nat = Some msg →
   response_of out = Some (res_status_json 500 (error_body msg))).
Proof.
  intros u id stored Hkey Hbody. subst u id stored.
  unfold sdk_put_notes_id. rewrite Hkey, Hbody.
  eexists. split; [reflexivity|]. cbv zeta.
  unfold sdk_child_update. exec. split_and!.
  - intros H0. rewrite H0. simpl.
    destruct (rejects e 1); simpl; by children_simpl.
  - intros msg H0. by rewrite H0.
  - intros H0 H1. rewrite H0. simpl. rewrite H1. simpl. children_simpl.
    by rewrite lookup_insert_eq.
  - intros H0 msg H1. rewrite H0. simpl. by rewrite H1.
Qed.

Lemma sdk_put_refused (k : sdk_messages) (e : env) (d : database)
    (user : decoded_token) (req : request) :
  path_kind_of (params_id req) = PathRefused →
  ∃ m, sdk_put_notes_id k user req = Some m ∧
       response_of (run m e d)
       = Some (res_status_json 500 (error_body (invalid_path k (params_id req)))) ∧
       db (run m e d).2 = d ∧ io_log (run m e d).2 = [].
Proof. intros Hk. unfold sdk_put_notes_id. rewrite Hk. by eexists. Qed.

(** The properties of the record an update stores. *)
Lemma stored_updatedAt (b old : record) (t : Z) :
  merge_update (spread_then b "updatedAt" (JNum t)) old !! "updatedAt"
  = Some (JNum t).
Proof.
  apply merge_update_given; [|done]. unfold spread_then. apply lookup_insert_eq.
Qed.

Lemma stored_given (b old : record) (t : Z) (f : string) (v : json) :
  f ≠ "updatedAt" → b !! f = Some v → is_null v = false →
  merge_update (spread_then b "updatedAt" (JNum t)) old !! f = Some v.
Proof.
  intros Hf Hb Hv. apply merge_update_given; [|done].
  unfold spread_then. by rewrite lookup_insert_ne.
Qed.

Lemma stored_removed (b old : record) (t : Z) (f : string) :
  f ≠ "updatedAt" → b !! f = Some JNull →
  merge_update (spread_then b "updatedAt" (JNum t)) old !! f = None.
Proof.
  intros Hf Hb. apply (merge_update_removed _ _ _ JNull); [|done].
  unfold spread_then. by rewrite lookup_insert_ne.
Qed.

Lemma stored_absent (b old : record) (t : Z) (f : string) :
  f ≠ "updatedAt" → b !! f = None →
  merge_update (spread_then b "updatedAt" (JNum t)) old !! f = old !! f.
Proof.
  intros Hf Hb. apply merge_update_absent.
  unfold spread_then. by rewrite lookup_insert_ne.
Qed.

(** C5 as stated fails. Toggling [done] in the millisecond the note
    was last written leaves [updatedAt] where it was: it is not
    strictly later. *)
Lemma toggle_in_same_millisecond :
  let req := as_alice "n1" {[ "done" := JBool true ]} in
  children db_stored (notesRef "alice") !! "n1" = Some stored_milk ∧
  stored_milk !! "updatedAt" = Some (JNum 1000) ∧
  ∃ m, sdk_put_notes_id terse alice req = Some m ∧
       succeeded (run m (frozen "k") db_stored) ∧
       ∃ note : record,
         children (db (run m (frozen "k") db_stored).2) (notesRef "alice") !! "n1"
         = Some note ∧
         note !! "done" = Some (JBool true) ∧
         note !! "updatedAt" = Some (JNum 1000) ∧
         ¬ (∃ t, note !! "updatedAt" = Some (JNum t) ∧ 1000 < t).
Proof.
  split; [reflexivity|]. split; [reflexivity|].
  eexists. split; [reflexivity|]. split; [vm_compute; reflexivity|].
  exists (<[ "done" := JBool true ]> stored_milk).
  split; [vm_compute; reflexivity|]. split; [reflexivity|].
  split; [reflexivity|].
  intros (t & Ht & Hlt).
  assert (Hu : (<[ "done" := JBool true ]> stored_milk : record) !! "updatedAt"
               = Some (JNum 1000)) by reflexivity.
  rewrite Hu in Ht. injection Ht as <-. lia.
Qed.

(** C5, amended. For an id that is one key and a body whose
    properties have ordinary names and values the store keeps as
    written (or [null]), a completed update call on the existing note
    [N] stores under the same key the record in which every property
    of the body other than [updatedAt] has the given value, or is
    removed when the body gives [null]; every property absent from the
    body (other than [updatedAt]) is as in [N]; and [updatedAt] is the
    clock reading of the call.  The other notes and the trash are
    untouched.  In particular an update with [{done: true}] keeps
    [text], sets [done] to [true], and its [updatedAt] is strictly
    greater than the previous one whenever the clock reading is.  For
    an id the SDK refuses the answer is 500 and nothing is written. *)
Theorem update_merges (k : sdk_messages) (e : env) (d : database)
    (user : decoded_token) (req : request) (N : record) :
  let u := uid user in
  let id := params_id req in
  (path_kind_of id = PathKey →
   body_followed (body req) = true →
   children d (notesRef u) !! id = Some N →
   rejects e 0%nat = None →
   ∃ (m : M response) (note : record),
     sdk_put_notes_id k user req = Some m ∧
     let out := run m e d in
     children (db out.2) (notesRef u) = <[ id := note ]> (children d (notesRef u)) ∧
     children (db out.2) (trashRef u) = children d (trashRef u) ∧
     (∀ f v, f ≠ "updatedAt" → body req !! f = Some v → is_null v = false →
             note !! f = Some v) ∧
     (∀ f, f ≠ "updatedAt" → body req !! f = Some JNull → note !! f = None) ∧
     (∀ f, f ≠ "updatedAt" → body req !! f = None → note !! f = N !! f) ∧
     note !! "updatedAt" = Some (JNum (clock e 0%nat)) ∧
     (body req = {[ "done" := JBool true ]} →
      note !! "text" = N !! "text" ∧ note !! "done" = Some (JBool true)) ∧
     (∀ p, N !! "updatedAt" = Some (JNum p) → p < clock e 0%nat →
        ∃ t, note !! "updatedAt" = Some (JNum t) ∧ p < t) ∧
     (rejects e 1%nat = None →
      response_of out = Some (res_json (JObj (with_id id note))))) ∧
  (path_kind_of id = PathRefused →
   ∃ m, sdk_put_notes_id k user req = Some m ∧
        response_of (run m e d)
        = Some (res_status_json 500 (error_body (invalid_path k id))) ∧
        db (run m e d).2 = d ∧ io_log (run m e d).2 = []).
Proof.
  intros u id. split; [|by apply sdk_put_refused].
  intros Hkey Hbody HN H0.
  destruct (sdk_put_run k e d user req Hkey Hbody) as (m & Hm & Hdb & _ & Hresp & _).
  fold u id in Hdb, Hresp. rewrite HN in Hdb, Hresp. simpl in Hdb, Hresp.
  destruct (Hdb H0) as [Hnotes Htrash].
  eexists m, _. split; [exact Hm|]. intros out.
  split; [exact Hnotes|]. split; [exact Htrash|]. split_and!.
  - intros f v Hf Hb Hv. by apply stored_given.
  - intros f Hf Hb. by apply stored_removed.
  - intros f Hf Hb. by apply stored_absent.
  - apply stored_updatedAt.
  - intros Hb. rewrite Hb. split.
    + by apply stored_absent.
    + by apply stored_given.
  - intros p _ Hlt. exists (clock e 0%nat). split; [apply stored_updatedAt|done].
  - intros H1. by apply Hresp.
Qed.

Lemma update_merges_witness :
  let req := as_alice "n1" {[ "done" := JBool true ]} in
  (path_kind_of "n1" = PathKey ∧
   body_followed (body req) = true ∧
   children db_stored (notesRef "alice") !! "n1" = Some stored_milk ∧
   rejects (quiet "k") 0%nat = None) ∧
  ∃ (m : M response) (note : record),
    sdk_put_notes_id terse alice req = Some m ∧
    children (db (run m (quiet "k") db_stored).2) (notesRef "alice") !! "n1"
    = Some note ∧
    note !! "text" = Some (JStr "buy milk") ∧
    note !! "done" = Some (JBool true) ∧
    note !! "updatedAt" = Some (JNum 1000).
Proof.
  intros req.
  assert (K1 : path_kind_of "n1" = PathKey) by reflexivity.
  assert (Hb : body_followed (body req) = true) by reflexivity.
  assert (Hn : children db_stored (notesRef "alice") !! "n1" = Some stored_milk)
    by reflexivity.
  assert (H0 : rejects (quiet "k") 0%nat = None) by reflexivity.
  destruct (update_merges terse (quiet "k") db_stored alice req stored_milk) as [Hkey _].
  destruct (Hkey K1 Hb Hn H0)
    as (m & note & Hm & Hdb & _ & _ & _ & _ & Hu & Hdone & _).
  destruct (Hdone eq_refl) as [Htext Hd].
  split; [exact (conj K1 (conj Hb (conj Hn H0)))|].
  exists m, note. split; [exact Hm|].
  split; [|exact (conj Htext (conj Hd Hu))].
  change (children (db (run m (quiet "k") db_stored).2) (notesRef "alice")
          = <[ "n1" := note ]> (children db_stored (notesRef "alice"))) in Hdb.
  rewrite Hdb. apply lookup_insert_eq.
Defined.

(** C10 as stated fails. An update whose body gives [text] as
    [null] does not store [null] as the note's [text]: it removes the
    property. *)
Lemma update_with_null_removes :
  let req := as_alice "n1" {[ "text" := JNull ]} in
  children db_stored (notesRef "alice") !! "n1" = Some stored_milk ∧
  stored_milk !! "text" = Some (JStr "buy milk") ∧
  ∃ m, sdk_put_notes_id terse alice req = Some m ∧
       succeeded (run m (quiet "k") db_stored) ∧
       ∃ note : record,
         children (db (run m (quiet "k") db_stored).2) (notesRef "alice") !! "n1"
         = Some note ∧
         note !! "text" = None ∧
         note !! "text" ≠ body req !! "text".
Proof.
  split; [reflexivity|]. split; [reflexivity|].
  eexists. split; [reflexivity|].
  split; [vm_compute; reflexivity|].
  exists (<[ "updatedAt" := JNum 1000 ]> {[ "createdAt" := JNum 1000 ]}).
  split; [vm_compute; reflexivity|].
  split; [reflexivity|]. intros H. vm_compute in H. discriminate H.
Qed.

(** C10, amended. For an id that is one key and a body whose
    properties have ordinary names and values the store keeps as
    written (or [null]), a completed update call on an existing note
    stores the clock reading of the call as [updatedAt], whatever
    [updatedAt] the body carries, while every other property of the
    body, [createdAt] included, is stored with the value the body
    gives, except that a property given as [null] is removed from the
    note. *)
Theorem update_stamps_server_time (k : sdk_messages) (e : env) (d : database)
    (user : decoded_token) (req : request) (N : record) :
  let u := uid user in
  let id := params_id req in
  path_kind_of id = PathKey →
  body_followed (body req) = true →
  children d (notesRef u) !! id = Some N →
  rejects e 0%nat = None →
  ∃ (m : M response) (note : record),
    sdk_put_notes_id k user req = Some m ∧
    children (db (run m e d).2) (notesRef u) !! id = Some note ∧
    note !! "updatedAt" = Some (JNum (clock e 0%nat)) ∧
    (∀ v, body req !! "updatedAt" = Some v →
       note !! "updatedAt" = Some (JNum (clock e 0%nat))) ∧
    (∀ f v, f ≠ "updatedAt" → body req !! f = Some v → is_null v = false →
            note !! f = Some v) ∧
    (∀ f, f ≠ "updatedAt" → body req !! f = Some JNull → note !! f = None) ∧
    (∀ v, body req !! "createdAt" = Some v → is_null v = false →
          note !! "createdAt" = Some v).
Proof.
  intros u id Hkey Hbody HN H0.
  destruct (sdk_put_run k e d user req Hkey Hbody) as (m & Hm & Hdb & _).
  fold u id in Hdb. rewrite HN in Hdb. simpl in Hdb.
  destruct (Hdb H0) as [Hnotes _].
  eexists m, _. split; [exact Hm|].
  split; [rewrite Hnotes; apply lookup_insert_eq|]. split_and!.
  - apply stored_updatedAt.
  - intros v _. apply stored_updatedAt.
  - intros f v Hf Hb Hv. by apply stored_given.
  - intros f Hf Hb. by apply stored_removed.
  - intros v Hb Hv. by apply stored_given.
Qed.

Lemma update_stamps_server_time_witness :
  let forged : record :=
    <[ "updatedAt" := JNum 1 ]> {[ "createdAt" := JNum 2 ]} in
  let req := as_alice "n1" forged in
  (path_kind_of "n1" = PathKey ∧
   body_followed (body req) = true ∧
   children db_stored (notesRef "alice") !! "n1" = Some stored_milk ∧
   rejects (quiet "k") 0%nat = None) ∧
  ∃ (m : M response) (note : record),
    sdk_put_notes_id terse alice req = Some m ∧
    children (db (run m (quiet "k") db_stored).2) (notesRef "alice") !! "n1"
    = Some note ∧
    note !! "updatedAt" = Some (JNum 1000) ∧
    note !! "createdAt" = Some (JNum 2).
Proof.
  intros forged req.
  assert (K1 : path_kind_of "n1" = PathKey) by reflexivity.
  assert (Hb : body_followed (body req) = true) by reflexivity.
  assert (Hn : children db_stored (notesRef "alice") !! "n1" = Some stored_milk)
    by reflexivity.
  assert (H0 : rejects (quiet "k") 0%nat = None) by reflexivity.
  destruct (update_stamps_server_time terse (quiet "k") db_stored alice req stored_milk
              K1 Hb Hn H0) as (m & note & Hm & Hnote & Hu & _ & _ & _ & Hc).
  split; [exact (conj K1 (conj Hb (conj Hn H0)))|].
  exists m, note. split; [exact Hm|]. split; [exact Hnote|].
  split; [exact Hu|]. exact (Hc (JNum 2) eq_refl eq_refl).
Defined.

(** ** Create, restated with the SDK *)

Lemma drop_nulls_id (o : record) :
  (∀ f, o !! f ≠ Some JNull) → drop_nulls o = o.
Proof.
  intros H. unfold drop_nulls. apply map_filter_id. intros f v Hv. simpl.
  destruct v; try done. by destruct (H f).
Qed.

(** [o.f || d] is never [null] when [d] is not. *)
Lemma prop_or_not_null (o : record) (f : string) (dflt : json) :
  is_null dflt = false → is_null (prop_or o f dflt) = false.
Proof.
  intros Hd. unfold prop_or. destruct (o !! f) as [v|]; [|done].
  destruct v as [|b|n|s| |]; simpl; try done.
  - by destruct b.
  - by destruct (Z.eqb n 0).
  - by destruct (String.eqb s "").
Qed.

(** The properties of the note a create hands to the store, by name. *)
Lemma new_note_lookup (b : record) (t1 t2 : Z) (f : string) :
  new_note b t1 t2 !! f
  = if decide (f = "text") then Some (prop_or b "text" (JStr ""))
    else if decide (f = "file") then Some (prop_or b "file" JNull)
    else if decide (f = "createdAt") then Some (JNum t1)
    else if decide (f = "updatedAt") then Some (JNum t2)
    else None.
Proof.
  unfold new_note. repeat case_decide; subst;
    rewrite ?lookup_insert_eq; try done;
    rewrite ?lookup_insert_ne by done; rewrite ?lookup_insert_eq; try done.
Qed.

(** The run of a create whose text and file the store keeps as written. *)
Lemma sdk_post_run (e : env) (d : database) (user : decoded_token)
    (req : request) :
  let u := uid user in
  let note := new_note (body req) (clock e 0%nat) (clock e 1%nat) in
  property_followed (prop_or (body req) "text" (JStr "")) = true →
  property_followed (prop_or (body req) "file" JNull) = true →
  ∃ m, sdk_post_notes user req = Some m ∧
  let out := run m e d in
  (rejects e 0%nat = None →
   response_of out = Some (res_json (JObj (with_id (push_key e) note))) ∧
   children (db out.2) (notesRef u)
   = <[ push_key e := drop_nulls note ]> (children d (notesRef u)) ∧
   children (db out.2) (trashRef u) = children d (trashRef u)) ∧
  (∀ msg, rejects e 0%nat = Some msg →
     response_of out = Some (res_status_json 500 (error_body msg)) ∧
     db out.2 = d).
Proof.
  intros u note Ht Hf. subst u note. unfold sdk_post_notes. rewrite Ht, Hf.
  eexists. split; [reflexivity|]. cbv zeta. exec. split.
  - intros H0. rewrite H0. simpl. by children_simpl.
  - intros msg H0. by rewrite H0.
Qed.

Lemma stored_note_text (b : record) (t1 t2 : Z) :
  drop_nulls (new_note b t1 t2) !! "text" = Some (prop_or b "text" (JStr "")).
Proof.
  apply drop_nulls_kept; [by rewrite new_note_lookup|].
  by apply prop_or_not_null.
Qed.

Lemma stored_note_file (b : record) (t1 t2 : Z) :
  drop_nulls (new_note b t1 t2) !! "file"
  = if is_null (prop_or b "file" JNull) then None
    else Some (prop_or b "file" JNull).
Proof.
  destruct (is_null (prop_or b "file" JNull)) eqn:Hn.
  - apply drop_nulls_dropped. intros v. rewrite new_note_lookup. simpl.
    by intros [= <-].
  - apply drop_nulls_kept; [by rewrite new_note_lookup|done].
Qed.

Lemma stored_note_times (b : record) (t1 t2 : Z) :
  drop_nulls (new_note b t1 t2) !! "createdAt" = Some (JNum t1) ∧
  drop_nulls (new_note b t1 t2) !! "updatedAt" = Some (JNum t2).
Proof. split; (apply drop_nulls_kept; [by rewrite new_note_lookup|done]). Qed.

Lemma stored_note_other (b : record) (t1 t2 : Z) (f : string) :
  f ≠ "text" → f ≠ "file" → f ≠ "createdAt" → f ≠ "updatedAt" →
  drop_nulls (new_note b t1 t2) !! f = None.
Proof.
  intros H1 H2 H3 H4. apply drop_nulls_dropped. intros v.
  rewrite new_note_lookup. by repeat case_decide.
Qed.

(** [o.f || d], case by case on what the body gives. *)
Lemma prop_or_cases (o : record) (f : string) (dflt : json) :
  (o !! f = None → prop_or o f dflt = dflt) ∧
  (o !! f = Some JNull → prop_or o f dflt = dflt) ∧
  (o !! f = Some (JBool false) → prop_or o f dflt = dflt) ∧
  (o !! f = Some (JNum 0) → prop_or o f dflt = dflt) ∧
  (o !! f = Some (JStr "") → prop_or o f dflt = dflt) ∧
  (o !! f = Some (JBool true) → prop_or o f dflt = JBool true) ∧
  (∀ n, n ≠ 0 → o !! f = Some (JNum n) → prop_or o f dflt = JNum n) ∧
  (∀ s, s ≠ "" → o !! f = Some (JStr s) → prop_or o f dflt = JStr s) ∧
  (∀ l, o !! f = Some (JArr l) → prop_or o f dflt = JArr l) ∧
  (∀ x, o !! f = Some (JObj x) → prop_or o f dflt = JObj x).
Proof.
  unfold prop_or. split_and!; try (by intros ->).
  - intros n Hn ->. simpl. apply Z.eqb_neq in Hn. by rewrite Hn.
  - intros s Hs ->. simpl. apply String.eqb_neq in Hs. by rewrite Hs.
  - by intros l ->.
  - by intros x ->.
Qed.

(** C9 as stated fails. The note stored by an ordinary create,
    one without attachment, has no [file] property: the answer carries
    [file: null], which the store does not keep. *)
Lemma created_note_has_no_file :
  let req := as_alice "" {[ "text" := JStr "buy milk" ]} in
  ∃ m, sdk_post_notes alice req = Some m ∧
       succeeded (run m (quiet "n1") ∅) ∧
       ∃ note : record,
         children (db (run m (quiet "n1") ∅).2) (notesRef "alice") !! "n1"
         = Some note ∧
         note !! "file" = None ∧
         dom note ≠ ({[ "text"; "file"; "createdAt"; "updatedAt" ]} : gset string).
Proof.
  eexists. split; [reflexivity|]. split; [vm_compute; reflexivity|].
  exists (<[ "text" := JStr "buy milk" ]>
            (<[ "createdAt" := JNum 1000 ]> {[ "updatedAt" := JNum 1001 ]})).
  split; [vm_compute; reflexivity|]. split; [reflexivity|].
  intros Hdom.
  assert (Hin : "file" ∈ dom (<[ "text" := JStr "buy milk" ]>
            (<[ "createdAt" := JNum 1000 ]>
               ({[ "updatedAt" := JNum 1001 ]} : record)))).
  { rewrite Hdom. set_solver. }
  apply elem_of_dom in Hin as [v Hv]. discriminate Hv.
Qed.

(** C9, amended. For a body whose [text] and [file] are values the
    store keeps as written, the note a completed create stores has
    [text], [createdAt] and [updatedAt], has [file] only when the body
    gives a truthy one, and has no other property.  [text] is the
    body's [text] when that is truthy (a non-empty string, a non-zero
    number, [true], an object) and the empty string when it is absent,
    [null], [false], zero or empty; [file] is the body's [file] when
    truthy, and when it is absent or falsy the stored note has no
    [file] while the answer carries [file: null].  Two requests whose
    bodies agree on [text] and [file] run identically, whatever else
    the bodies carry. *)
Theorem create_fields (e : env) (d : database) (user : decoded_token)
    (req : request) :
  let u := uid user in
  let b := body req in
  property_followed (prop_or b "text" (JStr "")) = true →
  property_followed (prop_or b "file" JNull) = true →
  ∃ m, sdk_post_notes user req = Some m ∧
  let out := run m e d in
  (rejects e 0%nat = None →
   ∃ note answer : record,
     children (db out.2) (notesRef u) !! push_key e = Some note ∧
     response_of out = Some (res_json (JObj answer)) ∧
     (∀ f, f ≠ "text" → f ≠ "file" → f ≠ "createdAt" → f ≠ "updatedAt" →
           note !! f = None) ∧
     note !! "createdAt" = Some (JNum (clock e 0%nat)) ∧
     note !! "updatedAt" = Some (JNum (clock e 1%nat)) ∧
     (b !! "text" = None ∨ b !! "text" = Some JNull
      ∨ b !! "text" = Some (JBool false) ∨ b !! "text" = Some (JNum 0)
      ∨ b !! "text" = Some (JStr "") →
      note !! "text" = Some (JStr "")) ∧
     (∀ s, s ≠ "" → b !! "text" = Some (JStr s) → note !! "text" = Some (JStr s)) ∧
     (∀ n, n ≠ 0 → b !! "text" = Some (JNum n) → note !! "text" = Some (JNum n)) ∧
     (b !! "text" = Some (JBool true) → note !! "text" = Some (JBool true)) ∧
     (∀ o, b !! "text" = Some (JObj o) → note !! "text" = Some (JObj o)) ∧
     (b !! "file" = None ∨ b !! "file" = Some JNull
      ∨ b !! "file" = Some (JBool false) ∨ b !! "file" = Some (JNum 0)
      ∨ b !! "file" = Some (JStr "") →
      note !! "file" = None ∧ answer !! "file" = Some JNull) ∧
     (∀ o, b !! "file" = Some (JObj o) →
        note !! "file" = Some (JObj o) ∧ answer !! "file" = Some (JObj o)) ∧
     (∀ s, s ≠ "" → b !! "file" = Some (JStr s) → note !! "file" = Some (JStr s)) ∧
     answer !! "text" = note !! "text") ∧
  (∀ req' : request,
     body req' !! "text" = b !! "text" →
     body req' !! "file" = b !! "file" →
     ∃ m', sdk_post_notes user req' = Some m' ∧ run m' e d = out).
Proof.
  intros u b Ht Hf.
  destruct (sdk_post_run e d user req Ht Hf) as (m & Hm & Hrun & _).
  exists m. split; [exact Hm|]. intros out. fold u b out in Hrun. split.
  - intros H0. destruct (Hrun H0) as (Hresp & Hnotes & _).
    destruct (prop_or_cases b "text" (JStr ""))
      as (T1 & T2 & T3 & T4 & T5 & T6 & T7 & T8 & _ & T10).
    destruct (prop_or_cases b "file" JNull)
      as (F1 & F2 & F3 & F4 & F5 & _ & _ & F8 & _ & F10).
    pose proof (stored_note_text b (clock e 0%nat) (clock e 1%nat)) as Stext.
    pose proof (stored_note_file b (clock e 0%nat) (clock e 1%nat)) as Sfile.
    destruct (stored_note_times b (clock e 0%nat) (clock e 1%nat)) as [Sc Su].
    assert (Afile : with_id (push_key e)
                      (new_note b (clock e 0%nat) (clock e 1%nat)) !! "file"
                    = Some (prop_or b "file" JNull)).
    { rewrite with_id_lookup_ne by done. by rewrite new_note_lookup. }
   
    eexists _, _. split; [rewrite Hnotes; apply lookup_insert_eq|].
    split; [exact Hresp|]. split_and!.
    + intros f. apply stored_note_other.
    + exact Sc.
    + exact Su.
    + rewrite Stext. intros [H|[H|[H|[H|H]]]];
        [rewrite (T1 H)|rewrite (T2 H)|rewrite (T3 H)|rewrite (T4 H)
        |rewrite (T5 H)]; reflexivity.
    + intros s Hs H. rewrite Stext, (T8 s Hs H). reflexivity.
    + intros n Hn H. rewrite Stext, (T7 n Hn H). reflexivity.
    + intros H. rewrite Stext, (T6 H). reflexivity.
    + intros o H. rewrite Stext, (T10 o H). reflexivity.
    + rewrite Sfile, Afile. intros [H|[H|[H|[H|H]]]];
        [rewrite (F1 H)|rewrite (F2 H)|rewrite (F3 H)|rewrite (F4 H)
        |rewrite (F5 H)]; split; reflexivity.
    + intros o H. rewrite Sfile, Afile, (F10 o H). split; reflexivity.
    + intros s Hs H. rewrite Sfile, (F8 s Hs H). reflexivity.
    + rewrite Stext, with_id_lookup_ne by done. by rewrite new_note_lookup.
  - intros req' Ht' Hf'.
    assert (Hsame : ∀ dflt f, body req' !! f = b !! f →
                     prop_or (body req') f dflt = prop_or b f dflt).
    { intros dflt f H. unfold prop_or. by rewrite H. }
   
    destruct (sdk_post_run e d user req') as (m' & Hm' & _).
    { by rewrite (Hsame _ _ Ht'). }
    { by rewrite (Hsame _ _ Hf'). }
   
    exists m'. split; [exact Hm'|].
    assert (Heq : Some m' = Some m).
    { rewrite <- Hm', <- Hm. unfold sdk_post_notes. fold b.
      rewrite (Hsame _ _ Ht'), (Hsame _ _ Hf'), Ht, Hf. cbn [andb].
      unfold new_note.
      rewrite (Hsame _ _ Ht'), (Hsame _ _ Hf'). reflexivity. }
   
    injection Heq as ->. reflexivity.
Qed.

Lemma create_fields_witness :
  let att : record := <[ "name" := JStr "list.pdf" ]> {[ "size" := JNum 2048 ]} in
  let sent : record :=
    <[ "id" := JStr "n1" ]> (<[ "createdAt" := JNum 7 ]>
    (<[ "text" := JStr "eggs" ]> {[ "file" := JObj att ]})) in
  let plain : record := <[ "text" := JStr "eggs" ]> {[ "file" := JObj att ]} in
  (property_followed (prop_or sent "text" (JStr "")) = true ∧
   property_followed (prop_or sent "file" JNull) = true ∧
   rejects (quiet "n2") 0%nat = None ∧
   "eggs" ≠ "" ∧
   sent !! "text" = Some (JStr "eggs") ∧
   sent !! "file" = Some (JObj att) ∧
   plain !! "text" = sent !! "text" ∧
   plain !! "file" = sent !! "file") ∧
  ∃ m, sdk_post_notes alice (as_alice "" sent) = Some m ∧
       (∃ note : record,
          children (db (run m (quiet "n2") db_stored).2) (notesRef "alice") !! "n2"
          = Some note ∧
          note !! "text" = Some (JStr "eggs") ∧
          note !! "file" = Some (JObj att) ∧
          note !! "id" = None ∧
          note !! "createdAt" = Some (JNum 1000)) ∧
       ∃ m', sdk_post_notes alice (as_alice "zz" plain) = Some m' ∧
             run m' (quiet "n2") db_stored = run m (quiet "n2") db_stored.
Proof.
  intros att sent plain.
  assert (H1 : property_followed (prop_or sent "text" (JStr "")) = true)
    by (vm_compute; reflexivity).
  assert (H2 : property_followed (prop_or sent "file" JNull) = true)
    by (vm_compute; reflexivity).
  assert (H3 : rejects (quiet "n2") 0%nat = None) by reflexivity.
  assert (H4 : "eggs" ≠ "") by discriminate.
  assert (H5 : sent !! "text" = Some (JStr "eggs")) by reflexivity.
  assert (H6 : sent !! "file" = Some (JObj att)) by reflexivity.
  assert (H7 : plain !! "text" = sent !! "text") by reflexivity.
  assert (H8 : plain !! "file" = sent !! "file") by reflexivity.
  destruct (create_fields (quiet "n2") db_stored alice (as_alice "" sent) H1 H2)
    as (m & Hm & Hstored & Hsame).
  destruct (Hstored H3)
    as (note & answer & Hnote & _ & Hother & Hc & _ & _ & Htext & _ & _ & _ & _
        & Hfile & _).
  split; [exact (conj H1 (conj H2 (conj H3 (conj H4 (conj H5
            (conj H6 (conj H7 H8)))))))|].
  exists m. split; [exact Hm|]. split.
  - exists note. split; [exact Hnote|].
    split; [exact (Htext "eggs" H4 H5)|].
    split; [exact (proj1 (Hfile att H6))|].
    split; [|exact Hc].
    apply Hother; discriminate.
  - exact (Hsame (as_alice "zz" plain) H7 H8).
Defined.

(** C7 as stated fails. A note created while the clock ticks has
    [updatedAt] one millisecond after [createdAt]: the two are read
    separately. *)
Lemma create_across_a_tick :
  let req := as_alice "" {[ "text" := JStr "buy milk" ]} in
  clock (quiet "n1") 0%nat = 1000 ∧ clock (quiet "n1") 1%nat = 1001 ∧
  ∃ m, sdk_post_notes alice req = Some m ∧
       succeeded (run m (quiet "n1") ∅) ∧
       ∃ note : record,
         children (db (run m (quiet "n1") ∅).2) (notesRef "alice") !! "n1"
         = Some note ∧
         note !! "createdAt" = Some (JNum 1000) ∧
         note !! "updatedAt" = Some (JNum 1001) ∧
         note !! "createdAt" ≠ note !! "updatedAt".
Proof.
  split; [reflexivity|]. split; [reflexivity|].
  eexists. split; [reflexivity|]. split; [vm_compute; reflexivity|].
  exists (<[ "text" := JStr "buy milk" ]>
            (<[ "createdAt" := JNum 1000 ]> {[ "updatedAt" := JNum 1001 ]})).
  split; [vm_compute; reflexivity|]. split; [reflexivity|].
  split; [reflexivity|].
  intros H. vm_compute in H. discriminate H.
Qed.

(** C7, amended. For a body whose [text] and [file] are values the
    store keeps as written, a create whose push completes answers the
    note it built together with the generated key as [id], and stores
    that note under that key without its [null]-valued properties: so
    a create without attachment answers [file: null] and stores no
    [file].  [createdAt] is the first clock reading of the call and
    [updatedAt] the second (the two are equal whenever the clock did
    not advance in between).  The trash is untouched, and when the
    generated key is new to the active collection, as the store's
    contract has it, that collection has exactly one more entry. *)
Theorem create_adds_one_note (e : env) (d : database) (user : decoded_token)
    (req : request) :
  let u := uid user in
  property_followed (prop_or (body req) "text" (JStr "")) = true →
  property_followed (prop_or (body req) "file" JNull) = true →
  rejects e 0%nat = None →
  ∃ (m : M response) (note answer : record),
    sdk_post_notes user req = Some m ∧
    let out := run m e d in
    response_of out = Some (res_json (JObj answer)) ∧
    children (db out.2) (notesRef u)
    = <[ push_key e := note ]> (children d (notesRef u)) ∧
    children (db out.2) (trashRef u) = children d (trashRef u) ∧
    answer !! "id" = Some (JStr (push_key e)) ∧
    answer !! "createdAt" = Some (JNum (clock e 0%nat)) ∧
    answer !! "updatedAt" = Some (JNum (clock e 1%nat)) ∧
    note !! "createdAt" = Some (JNum (clock e 0%nat)) ∧
    note !! "updatedAt" = Some (JNum (clock e 1%nat)) ∧
    (clock e 0%nat = clock e 1%nat → note !! "createdAt" = note !! "updatedAt") ∧
    (∀ f v, f ≠ "id" → answer !! f = Some v → is_null v = false →
            note !! f = Some v) ∧
    (∀ f, f ≠ "id" → answer !! f = Some JNull → note !! f = None) ∧
    (∀ f v, note !! f = Some v → answer !! f = Some v) ∧
    (body req !! "file" = None →
     answer !! "file" = Some JNull ∧ note !! "file" = None) ∧
    (children d (notesRef u) !! push_key e = None →
     dom (children (db out.2) (notesRef u))
     = {[ push_key e ]} ∪ dom (children d (notesRef u)) ∧
     size (children (db out.2) (notesRef u))
     = S (size (children d (notesRef u)))).
Proof.
  intros u Ht Hf H0.
  destruct (sdk_post_run e d user req Ht Hf) as (m & Hm & Hrun & _).
  destruct (Hrun H0) as (Hresp & Hnotes & Htrash).
  set (built := new_note (body req) (clock e 0%nat) (clock e 1%nat)) in *.
  assert (Hid : built !! "id" = None) by (unfold built; by rewrite new_note_lookup).
  destruct (stored_note_times (body req) (clock e 0%nat) (clock e 1%nat))
    as [Sc Su].
  exists m, (drop_nulls built), (with_id (push_key e) built).
  split; [exact Hm|]. intros out. subst out u. split_and!.
  - exact Hresp.
  - exact Hnotes.
  - exact Htrash.
  - by apply with_id_lookup_id.
  - rewrite with_id_lookup_ne by done. unfold built. by rewrite new_note_lookup.
  - rewrite with_id_lookup_ne by done. unfold built. by rewrite new_note_lookup.
  - exact Sc.
  - exact Su.
  - intros Heq. fold built in Sc, Su. rewrite Sc, Su. by rewrite Heq.
  - intros f v Hne Ha Hv. rewrite with_id_lookup_ne in Ha by done.
    by apply drop_nulls_kept.
  - intros f Hne Ha. rewrite with_id_lookup_ne in Ha by done.
    apply drop_nulls_dropped. intros v Hv. rewrite Ha in Hv. by injection Hv as <-.
  - intros f v Hn. apply drop_nulls_lookup in Hn as [Hn _].
    destruct (decide (f = "id")) as [->|Hne]; [congruence|].
    by rewrite with_id_lookup_ne.
  - intros Hnone.
    destruct (prop_or_cases (body req) "file" JNull) as (F1 & _).
    pose proof (stored_note_file (body req) (clock e 0%nat) (clock e 1%nat))
      as Sfile.
    fold built in Sfile. rewrite (F1 Hnone) in Sfile. simpl in Sfile.
    split; [|exact Sfile].
    rewrite with_id_lookup_ne by done. unfold built.
    by rewrite new_note_lookup, (F1 Hnone).
  - intros Hfresh. rewrite Hnotes. split.
    + by rewrite dom_insert_L.
    + by apply map_size_insert_None.
Qed.

Lemma create_adds_one_note_witness :
  let req := as_alice "" {[ "text" := JStr "eggs" ]} in
  (property_followed (prop_or (body req) "text" (JStr "")) = true ∧
   property_followed (prop_or (body req) "file" JNull) = true ∧
   rejects (frozen "n2") 0%nat = None ∧
   clock (frozen "n2") 0%nat = clock (frozen "n2") 1%nat ∧
   body req !! "file" = None ∧
   children db_stored (notesRef "alice") !! "n2" = None) ∧
  ∃ (m : M response) (note answer : record),
    sdk_post_notes alice req = Some m ∧
    response_of (run m (frozen "n2") db_stored) = Some (res_json (JObj answer)) ∧
    answer !! "file" = Some JNull ∧
    note !! "file" = None ∧
    note !! "createdAt" = note !! "updatedAt" ∧
    size (children (db (run m (frozen "n2") db_stored).2) (notesRef "alice"))
    = 2%nat.
Proof.
  intros req.
  assert (H1 : property_followed (prop_or (body req) "text" (JStr "")) = true)
    by (vm_compute; reflexivity).
  assert (H2 : property_followed (prop_or (body req) "file" JNull) = true)
    by (vm_compute; reflexivity).
  assert (H3 : rejects (frozen "n2") 0%nat = None) by reflexivity.
  assert (H4 : clock (frozen "n2") 0%nat = clock (frozen "n2") 1%nat)
    by reflexivity.
  assert (H5 : body req !! "file" = None) by reflexivity.
  assert (H6 : children db_stored (notesRef "alice") !! "n2" = None) by reflexivity.
  destruct (create_adds_one_note (frozen "n2") db_stored alice req H1 H2 H3)
    as (m & note & answer & Hm & Hresp & _ & _ & _ & _ & _ & _ & _ & Heq & _ & _
        & _ & Hfile & Hfresh).
  destruct (Hfile H5) as [Ha Hn]. destruct (Hfresh H6) as [_ Hsize].
  split; [exact (conj H1 (conj H2 (conj H3 (conj H4 (conj H5 H6)))))|].
  exists m, note, answer.
  exact (conj Hm (conj Hresp (conj Ha (conj Hn (conj (Heq H4) Hsize))))).
Defined.

(** X6. A note just created is in the next listing.  For a body
    whose [text] and [file] are values the store keeps as written,
    after a create whose push completed under a key new to the
    collection, a listing whose read is not rejected contains the
    stored note under the generated key: it agrees with the object the
    create answered on every property that is not [null] there, lacks
    the ones that are, and is that very object when the answer has no
    [null] property.  The listing still contains every element it had
    before and is longer by exactly one. *)
Theorem create_then_list (e e' : env) (d : database) (user : decoded_token)
    (req req' : request) :
  let u := uid user in
  property_followed (prop_or (body req) "text" (JStr "")) = true →
  property_followed (prop_or (body req) "file" JNull) = true →
  rejects e 0%nat = None →
  children d (notesRef u) !! push_key e = None →
  rejects e' 0%nat = None →
  ∃ (m : M response) (created listed : record) (l : list json),
    sdk_post_notes user req = Some m ∧
    let out := run m e d in
    response_of out = Some (res_json (JObj created)) ∧
    response_of (run (get_notes user req') e' (db out.2))
    = Some (res_json (JArr l)) ∧
    JObj listed ∈ l ∧
    listed !! "id" = Some (JStr (push_key e)) ∧
    (∀ f v, created !! f = Some v → is_null v = false → listed !! f = Some v) ∧
    (∀ f, created !! f = Some JNull → listed !! f = None) ∧
    ((∀ f, created !! f ≠ Some JNull) → listed = created) ∧
    (∀ x, x ∈ as_array (children d (notesRef u)) → x ∈ l) ∧
    length l = S (size (children d (notesRef u))).
Proof.
  intros u Ht Hf H0 Hfresh H0'.
  destruct (sdk_post_run e d user req Ht Hf) as (m & Hm & Hrun & _).
  destruct (Hrun H0) as (Hresp & Hnotes & _).
  set (built := new_note (body req) (clock e 0%nat) (clock e 1%nat)) in *.
  assert (Hid : built !! "id" = None) by (unfold built; by rewrite new_note_lookup).
  assert (Hid' : drop_nulls built !! "id" = None).
  { apply drop_nulls_dropped. intros v Hv. congruence. }
  exists m, (with_id (push_key e) built),
    (with_id (push_key e) (drop_nulls built)),
    (as_array (children (db (run m e d).2) (notesRef (uid user)))).
  split; [exact Hm|]. intros out. subst out u.
  pose proof (get_list_response e' (db (run m e d).2) user req' Notes) as Hlist.
  simpl in Hlist. rewrite H0' in Hlist.
  split; [exact Hresp|]. split; [exact Hlist|]. split_and!.
  - apply elem_of_as_array. eexists _, _. split; [|done].
    rewrite Hnotes. apply lookup_insert_eq.
  - by apply with_id_lookup_id.
  - intros f v Hc Hv. destruct (decide (f = "id")) as [->|Hne].
    + rewrite with_id_lookup_id in Hc by done.
      by rewrite with_id_lookup_id.
    + rewrite with_id_lookup_ne in Hc by done. rewrite with_id_lookup_ne by done.
      by apply drop_nulls_kept.
  - intros f Hc. destruct (decide (f = "id")) as [->|Hne].
    + rewrite with_id_lookup_id in Hc by done. discriminate Hc.
    + rewrite with_id_lookup_ne in Hc by done. rewrite with_id_lookup_ne by done.
      apply drop_nulls_dropped. intros v Hv. rewrite Hc in Hv.
      by injection Hv as <-.
  - intros Hnonull. f_equal. apply drop_nulls_id. intros f Hb.
    destruct (decide (f = "id")) as [->|Hne]; [congruence|].
    apply (Hnonull f). by rewrite with_id_lookup_ne.
  - intros x Hx. apply elem_of_as_array in Hx as (key & r & Hk & ->).
    apply elem_of_as_array. exists key, r. split; [|done]. rewrite Hnotes.
    rewrite lookup_insert_ne; [done|]. intros <-. congruence.
  - rewrite as_array_length, Hnotes. by apply map_size_insert_None.
Qed.

Lemma create_then_list_witness :
  let req := as_alice "" {[ "text" := JStr "eggs" ]} in
  (property_followed (prop_or (body req) "text" (JStr "")) = true ∧
   property_followed (prop_or (body req) "file" JNull) = true ∧
   rejects (quiet "n2") 0%nat = None ∧
   children db_stored (notesRef "alice") !! "n2" = None ∧
   rejects (quiet "k") 0%nat = None) ∧
  ∃ (m : M response) (listed : record) (l : list json),
    sdk_post_notes alice req = Some m ∧
    response_of (run (get_notes alice (as_alice "" ∅)) (quiet "k")
                   (db (run m (quiet "n2") db_stored).2))
    = Some (res_json (JArr l)) ∧
    JObj listed ∈ l ∧
    listed !! "id" = Some (JStr "n2") ∧
    length l = 2%nat.
Proof.
  intros req.
  assert (H1 : property_followed (prop_or (body req) "text" (JStr "")) = true)
    by (vm_compute; reflexivity).
  assert (H2 : property_followed (prop_or (body req) "file" JNull) = true)
    by (vm_compute; reflexivity).
  assert (H3 : rejects (quiet "n2") 0%nat = None) by reflexivity.
  assert (H4 : children db_stored (notesRef "alice") !! "n2" = None) by reflexivity.
  assert (H5 : rejects (quiet "k") 0%nat = None) by reflexivity.
  destruct (create_then_list (quiet "n2") (quiet "k") db_stored alice req
              (as_alice "" ∅) H1 H2 H3 H4 H5)
    as (m & created & listed & l & Hm & _ & Hl & Hin & Hid & _ & _ & _ & _ & Hlen).
  split; [exact (conj H1 (conj H2 (conj H3 (conj H4 H5))))|].
  exists m, listed, l. exact (conj Hm (conj Hl (conj Hin (conj Hid Hlen)))).
Defined.

(** X5. The [id] a listing (or an update's answer) shows for a note
    is its key only while the stored record has no [id] property of
    its own.  For an id that is one key and a followed body, a
    completed update whose body carries an [id] that is not [null]
    stores that property, and from then on the note is answered and
    listed with the body's [id] in place of its key. *)
Theorem stored_id_shadows_key (k : sdk_messages) (e : env) (d : database)
    (user : decoded_token) (req : request) (N : record) (v : json) :
  let u := uid user in
  let id := params_id req in
  (∀ key (r : record),
     with_id key r !! "id" = Some (default (JStr key) (r !! "id"))) ∧
  (path_kind_of id = PathKey →
   body_followed (body req) = true →
   children d (notesRef u) !! id = Some N →
   body req !! "id" = Some v → is_null v = false →
   rejects e 0%nat = None → rejects e 1%nat = None →
   ∃ (m : M response) (note : record),
     sdk_put_notes_id k user req = Some m ∧
     let out := run m e d in
     children (db out.2) (notesRef u) !! id = Some note ∧
     note !! "id" = Some v ∧
     response_of out = Some (res_json (JObj (with_id id note))) ∧
     with_id id note !! "id" = Some v ∧
     JObj (with_id id note) ∈ as_array (children (db out.2) (notesRef u))).
Proof.
  intros u id. split; [exact with_id_id|]. subst u id.
  intros Hkey Hbody HN Hb Hv H0 H1.
  destruct (sdk_put_run k e d user req Hkey Hbody) as (m & Hm & Hdb & _ & Hresp & _).
  cbv zeta in Hdb, Hresp. rewrite HN in Hdb, Hresp. simpl in Hdb, Hresp.
  destruct (Hdb H0) as [Hnotes _].
  eexists m, _. split; [exact Hm|]. intros out. subst out.
  assert (Hid : merge_update
                  (spread_then (body req) "updatedAt" (JNum (clock e 0%nat))) N
                !! "id" = Some v) by (by apply stored_given).
  split; [rewrite Hnotes; apply lookup_insert_eq|].
  split; [exact Hid|]. split; [by apply Hresp|]. split.
  - unfold with_id. by apply lookup_union_Some_l.
  - apply elem_of_as_array. eexists _, _. split; [|done].
    rewrite Hnotes. apply lookup_insert_eq.
Qed.

Lemma stored_id_shadows_key_witness :
  let moved : record := {[ "id" := JStr "n9" ]} in
  let req := as_alice "n1" moved in
  (path_kind_of "n1" = PathKey ∧
   body_followed (body req) = true ∧
   children db_stored (notesRef "alice") !! "n1" = Some stored_milk ∧
   moved !! "id" = Some (JStr "n9") ∧ is_null (JStr "n9") = false ∧
   rejects (quiet "k") 0%nat = None ∧ rejects (quiet "k") 1%nat = None) ∧
  ∃ (m : M response) (note : record),
    sdk_put_notes_id terse alice req = Some m ∧
    children (db (run m (quiet "k") db_stored).2) (notesRef "alice") !! "n1"
    = Some note ∧
    with_id "n1" note !! "id" = Some (JStr "n9").
Proof.
  intros moved req.
  assert (K1 : path_kind_of "n1" = PathKey) by reflexivity.
  assert (Hf : body_followed (body req) = true) by reflexivity.
  assert (Hn : children db_stored (notesRef "alice") !! "n1" = Some stored_milk)
    by reflexivity.
  assert (Hb : moved !! "id" = Some (JStr "n9")) by reflexivity.
  assert (Hv : is_null (JStr "n9") = false) by reflexivity.
  assert (H0 : rejects (quiet "k") 0%nat = None) by reflexivity.
  assert (H1 : rejects (quiet "k") 1%nat = None) by reflexivity.
  destruct (stored_id_shadows_key terse (quiet "k") db_stored alice req stored_milk
              (JStr "n9")) as [_ Hput].
  destruct (Hput K1 Hf Hn Hb Hv H0 H1) as (m & note & Hm & Hnote & _ & _ & Hid & _).
  split; [exact (conj K1 (conj Hf (conj Hn (conj Hb (conj Hv (conj H0 H1))))))|].
  exists m, note. exact (conj Hm (conj Hnote Hid)).
Defined.

(** X9. For an id that is one key and a followed body, an update
    whose write completed but whose read-back was rejected answers 500
    although the note has been changed: the stored record has the
    clock reading as [updatedAt], the body's properties that are not
    [null], and none of those the body gives as [null]. *)
Theorem update_persists_despite_500 (k : sdk_messages) (e : env)
    (d : database) (user : decoded_token) (req : request) (msg : string) :
  let u := uid user in
  let id := params_id req in
  path_kind_of id = PathKey →
  body_followed (body req) = true →
  rejects e 0%nat = None →
  rejects e 1%nat = Some msg →
  ∃ (m : M response) (note : record),
    sdk_put_notes_id k user req = Some m ∧
    let out := run m e d in
    response_of out = Some (res_status_json 500 (error_body msg)) ∧
    children (db out.2) (notesRef u) !! id = Some note ∧
    note !! "updatedAt" = Some (JNum (clock e 0%nat)) ∧
    (∀ f v, f ≠ "updatedAt" → body req !! f = Some v → is_null v = false →
            note !! f = Some v) ∧
    (∀ f, f ≠ "updatedAt" → body req !! f = Some JNull → note !! f = None).
Proof.
  intros u id Hkey Hbody H0 H1. subst u id.
  destruct (sdk_put_run k e d user req Hkey Hbody)
    as (m & Hm & Hdb & _ & _ & Hresp).
  cbv zeta in Hdb, Hresp. destruct (Hdb H0) as [Hnotes _].
  eexists m, _. split; [exact Hm|]. intros out. subst out.
  split; [exact (Hresp H0 msg H1)|].
  split; [rewrite Hnotes; apply lookup_insert_eq|]. split_and!.
  - apply stored_updatedAt.
  - intros f v Hf Hb Hv. by apply stored_given.
  - intros f Hf Hb. by apply stored_removed.
Qed.

Lemma update_persists_despite_500_witness :
  let req := as_alice "n1" {[ "text" := JStr "buy bread" ]} in
  (path_kind_of "n1" = PathKey ∧
   body_followed (body req) = true ∧
   rejects (failing_at 1 "k") 0%nat = None ∧
   rejects (failing_at 1 "k") 1%nat = Some "unavailable") ∧
  ∃ (m : M response) (note : record),
    sdk_put_notes_id terse alice req = Some m ∧
    response_of (run m (failing_at 1 "k") db_stored)
    = Some (res_status_json 500 (error_body "unavailable")) ∧
    children (db (run m (failing_at 1 "k") db_stored).2) (notesRef "alice") !! "n1"
    = Some note ∧
    note !! "text" = Some (JStr "buy bread").
Proof.
  intros req.
  assert (K1 : path_kind_of "n1" = PathKey) by reflexivity.
  assert (Hf : body_followed (body req) = true) by reflexivity.
  assert (H0 : rejects (failing_at 1 "k") 0%nat = None) by reflexivity.
  assert (H1 : rejects (failing_at 1 "k") 1%nat = Some "unavailable")
    by reflexivity.
  destruct (update_persists_despite_500 terse (failing_at 1 "k") db_stored alice
              req "unavailable" K1 Hf H0 H1)
    as (m & note & Hm & Hresp & Hnote & _ & Hgiven & _).
  split; [exact (conj K1 (conj Hf (conj H0 H1)))|].
  exists m, note. split; [exact Hm|]. split; [exact Hresp|].
  split; [exact Hnote|].
  apply Hgiven; [discriminate | reflexivity | reflexivity].
Defined.

(** The handlers the SDK layer follows, case by case. *)
Ltac sdk_cases H :=
  simpl in H; unfold sdk_post_notes, sdk_put_notes_id, guarded_by_id in H;
  repeat match type of H with
         | context [path_kind_of ?i] => destruct (path_kind_of i) eqn:?
         | context [body_followed ?b] => destruct (body_followed b) eqn:?
         | context [property_followed ?v] => destruct (property_followed v) eqn:?
         end;
  simpl in H; try discriminate H; injection H as <-.

(** X10. The footprint of a request.  For a request the SDK layer
    follows (an id that is one key, or one the SDK refuses), whatever
    the store rejects, a handler changes no record of its user other
    than the one under the key [id] and the one under the generated
    key; the two listings change nothing at all, create and update
    never touch the trash, a permanent delete never touches the active
    notes, and a route with an id the SDK refuses changes nothing and
    issues no store call. *)
Theorem request_footprint (k : sdk_messages) (r : route)
    (user : decoded_token) (req : request) (e : env) (d : database)
    (m : M response) :
  sdk_handler k r user req = Some m →
  let u := uid user in
  let out := run m e d in
  (∀ key, key ≠ params_id req → key ≠ push_key e →
     children (db out.2) (notesRef u) !! key = children d (notesRef u) !! key ∧
     children (db out.2) (trashRef u) !! key = children d (trashRef u) !! key) ∧
  (r = GET_notes ∨ r = GET_trash → db out.2 = d) ∧
  (r = POST_notes ∨ r = PUT_notes_id →
   children (db out.2) (trashRef u) = children d (trashRef u)) ∧
  (r = DELETE_trash_id →
   children (db out.2) (notesRef u) = children d (notesRef u)) ∧
  (r ≠ GET_notes → r ≠ GET_trash → r ≠ POST_notes →
   path_kind_of (params_id req) = PathRefused →
   db out.2 = d ∧ io_log out.2 = []).
Proof.
  intros Hm u out. subst u out. split_and!.
  - intros key Hid Hkey. destruct r; sdk_cases Hm;
      unfold sdk_child_update, throw; exec;
      repeat first
        [ progress children_simpl
        | step_store
        | match goal with
          | |- context [children d ?c !! params_id req] =>
              destruct (children d c !! params_id req) eqn:?; simpl
          end ];
      rewrite ?lookup_insert_ne, ?lookup_delete_ne by done; done.
  - intros [-> | ->]; sdk_cases Hm; by exec_all.
  - intros [-> | ->]; sdk_cases Hm; unfold sdk_child_update, throw;
      by exec_all.
  - intros ->; sdk_cases Hm; unfold throw; by exec_all.
  - intros H1 H2 H3 Hk. destruct r; try done; sdk_cases Hm;
      try discriminate Hk; by unfold throw.
Qed.

Lemma request_footprint_witness :
  let two : database :=
    set_children db_stored (notesRef "alice")
      (<[ "n2" := stored_milk ]> (children db_stored (notesRef "alice"))) in
  let req := as_alice "n1" ∅ in
  ("n2" ≠ params_id req ∧ "n2" ≠ push_key (quiet "t1")) ∧
  ∃ m, sdk_handler terse DELETE_notes_id alice req = Some m ∧
       children (db (run m (quiet "t1") two).2) (notesRef "alice") !! "n2"
       = Some stored_milk.
Proof.
  intros two req.
  assert (H1 : "n2" ≠ params_id req) by discriminate.
  assert (H2 : "n2" ≠ push_key (quiet "t1")) by discriminate.
  assert (Hm : sdk_handler terse DELETE_notes_id alice req
               = Some (delete_notes_id alice req)) by reflexivity.
  destruct (request_footprint terse DELETE_notes_id alice req (quiet "t1") two
              _ Hm) as (Hkeep & _).
  destruct (Hkeep "n2" H1 H2) as [Hn _].
  split; [exact (conj H1 H2)|].
  exists (delete_notes_id alice req). split; [exact Hm|].
  exact (eq_trans Hn eq_refl).
Defined.

(** X8. Every request the SDK layer follows is answered, with status
    200, 401, 404 or 500, and never another: 401 exactly when the
    bearer token does not verify, 404 only from the soft delete and
    the restore, 500 only when the SDK refused the id of the request
    or the last store call the request issued was rejected. *)
Theorem status_codes (k : sdk_messages) (r : route) (req : request)
    (e : env) (d : database) (out : outcome response * world) :
  sdk_serve k r req e d = Some out →
  ∃ resp : response,
    response_of out = Some resp ∧
    (status resp = 200 ∨ status resp = 401 ∨ status resp = 404
     ∨ status resp = 500)%nat ∧
    (status resp = 401%nat ↔ verified_user e req = None) ∧
    (status resp = 404%nat → r = DELETE_notes_id ∨ r = POST_trash_restore_id) ∧
    (status resp = 500%nat →
     path_kind_of (params_id req) = PathRefused
     ∨ ∃ op, last (io_log out.2) = Some (op, false)).
Proof.
  unfold sdk_serve. destruct (verified_user e req) as [user|] eqn:Hv.
  - destruct (sdk_handler k r user req) as [m|] eqn:Hm; [|discriminate].
    simpl. intros [= <-].
    destruct r; sdk_cases Hm; unfold sdk_child_update, throw; exec_all;
      eexists; (split; [reflexivity|]); simpl;
      (split_and!;
       [ auto
       | split; discriminate
       | first [ discriminate | auto ]
       | first [ discriminate
               | intros _; by left
               | intros _; right; eexists; reflexivity ] ]).
  - intros [= <-]. unfold run.
    rewrite (serve_unauthenticated r req e _ Hv). eexists.
    split; [reflexivity|]. simpl.
    split_and!; [auto | split; reflexivity | discriminate | discriminate].
Qed.

Lemma status_codes_witness :
  let req := as_alice "n.1" ∅ in
  ∃ out resp,
    sdk_serve terse DELETE_notes_id req (quiet "k") db_stored = Some out ∧
    response_of out = Some resp ∧
    status resp = 500%nat ∧
    path_kind_of (params_id req) = PathRefused ∧
    io_log out.2 = [].
Proof.
  intros req.
  assert (Hs : ∃ out, sdk_serve terse DELETE_notes_id req (quiet "k") db_stored
                      = Some out ∧ status <$> response_of out = Some 500%nat
                      ∧ io_log out.2 = []).
  { eexists. split; [vm_compute; reflexivity|]. split; vm_compute; reflexivity. }
  destruct Hs as (out & Hout & Hst & Hlog).
  destruct (status_codes terse DELETE_notes_id req (quiet "k") db_stored out Hout)
    as (resp & Hr & _ & _ & _ & H500).
  exists out, resp. split; [exact Hout|]. split; [exact Hr|].
  assert (H5 : status resp = 500%nat).
  { rewrite Hr in Hst. by injection Hst. }
  split; [exact H5|]. split; [|exact Hlog].
  destruct (H500 H5) as [Hk | [op Hop]]; [exact Hk|].
  rewrite Hlog in Hop. discriminate Hop.
Defined.

(** ** The upload route as registered *)

(** What the upload handler leaves alone, for a verified user. *)
Lemma post_upload_frame (user : decoded_token) (file : option upload_file)
    (e : upload_env) (s : storage) :
  let out := post_upload user file e s in
  (∀ k, String.prefix ("users/" ++ uid user ++ "/notes/") k = false →
        bucket out.2 !! k = bucket s !! k) ∧
  (∀ p, file_path <$> file ≠ Some p →
        uploads_dir out.2 !! p = uploads_dir s !! p) ∧
  (status out.1 = 200 ∨ status out.1 = 400 ∨ status out.1 = 500)%nat ∧
  (file = None →
   out = (res_status_json 400 (error_body "No file uploaded"), s)).
Proof.
  intros out. subst out. unfold post_upload, bucket_upload, unlinkSync.
  destruct file as [f|]; simpl; [|by split_and!; auto].
  assert (Hdest : ∀ k,
    String.prefix ("users/" ++ uid user ++ "/notes/") k = false →
    upload_destination (uid user) (uuidv4 e 0%nat) (originalname f) ≠ k).
  { intros k Hk <-. by rewrite upload_destination_prefix in Hk. }
  destruct (upload_rejects e); simpl; [by split_and!; auto|].
  destruct (uploads_dir s !! file_path f) eqn:Hfile; simpl;
    [|by split_and!; auto].
  rewrite Hfile.
  destruct (signing_rejects e); simpl; (split_and!; [| |auto|done]).
  all: try (intros k Hk; by rewrite lookup_insert_ne by (by apply Hdest)).
  all: intros p Hp; rewrite lookup_delete_ne; [done|];
    intros Heq; apply Hp; simpl; by rewrite Heq.
Qed.

(** The registered route is the token middleware in front of the
    upload handler. *)
Lemma upload_route_middleware (req : request) (file : option upload_file)
    (e : env) (ue : upload_env) (s : storage) (w : world) :
  verifyTokenMiddleware req
    (λ user, mret (post_upload user file ue s).1) e w
  = (Returned (upload_route req file e ue s).1, w).
Proof.
  unfold verifyTokenMiddleware, upload_route.
  destruct (String.prefix "Bearer " (default "" (authorization req)));
    simpl; [|reflexivity].
  by destruct (verifyIdToken e _).
Qed.

(** X15. The footprint of an upload, for the route as registered.
    The route answers what the token middleware in front of the upload
    handler answers.  A request whose bearer token does not verify is
    answered 401 and changes nothing.  A request of a verified user
    is never answered 401; whatever fails, it changes no object of the
    bucket outside [users/<uid>/notes/] of that user, and without a
    file it is answered 400 "No file uploaded" and changes nothing.
    In every case no temporary file other than the uploaded one
    changes, and the status is 200, 400, 401 or 500. *)
Theorem upload_footprint (req : request) (file : option upload_file)
    (e : env) (ue : upload_env) (s : storage) :
  let out := upload_route req file e ue s in
  (∀ w, verifyTokenMiddleware req
          (λ user, mret (post_upload user file ue s).1) e w
        = (Returned out.1, w)) ∧
  (verified_user e req = None → status out.1 = 401%nat ∧ out.2 = s) ∧
  (∀ user, verified_user e req = Some user →
     status out.1 ≠ 401%nat ∧
     (∀ k, String.prefix ("users/" ++ uid user ++ "/notes/") k = false →
           bucket out.2 !! k = bucket s !! k) ∧
     (file = None →
      out = (res_status_json 400 (error_body "No file uploaded"), s))) ∧
  (∀ p, file_path <$> file ≠ Some p →
        uploads_dir out.2 !! p = uploads_dir s !! p) ∧
  (status out.1 = 200 ∨ status out.1 = 400 ∨ status out.1 = 401
   ∨ status out.1 = 500)%nat.
Proof.
  intros out. split; [intros w; apply upload_route_middleware|].
  subst out. unfold upload_route, verified_user.
  destruct (String.prefix "Bearer " (default "" (authorization req)));
    simpl; [|by split_and!; auto].
  destruct (verifyIdToken e _) as [dec|]; simpl; [|by split_and!; auto].
  destruct (post_upload_frame (Decoded (uid dec) (email dec)) file ue s)
    as (Hbucket & Hdir & Hstatus & Hnone).
  split_and!.
  - discriminate.
  - intros user [= <-]. split_and!; [|exact Hbucket|exact Hnone].
    intros H401. rewrite H401 in Hstatus.
    by destruct Hstatus as [?|[?|?]].
  - exact Hdir.
  - destruct Hstatus as [?|[?|?]]; auto.
Qed.

Lemma upload_footprint_witness :
  let f := UploadFile "uploads/3f" "list.pdf" "application/pdf" 2048 in
  let ue := UploadEnv (λ _, "u0") None "ENOENT" None (λ n, n) in
  let s := Storage {[ "uploads/3f" := "%PDF" ]}
             {[ "users/bob/notes/u9_cv.pdf" := Blob "cv" "application/pdf" "u8" ]} in
  let req := as_alice "" ∅ in
  let out := upload_route req (Some f) (quiet "k") ue s in
  (verified_user (quiet "k") req = Some alice ∧
   String.prefix ("users/" ++ uid alice ++ "/notes/") "users/bob/notes/u9_cv.pdf"
   = false) ∧
  status out.1 ≠ 401%nat ∧
  bucket out.2 !! "users/bob/notes/u9_cv.pdf"
  = Some (Blob "cv" "application/pdf" "u8").
Proof.
  intros f ue s req out.
  assert (H0 : verified_user (quiet "k") req = Some alice) by reflexivity.
  assert (H1 : String.prefix ("users/" ++ uid alice ++ "/notes/")
                 "users/bob/notes/u9_cv.pdf" = false) by reflexivity.
  destruct (upload_footprint req (Some f) (quiet "k") ue s)
    as (_ & _ & Huser & _).
  destruct (Huser alice H0) as (Hst & Hkeep & _).
  split; [exact (conj H0 H1)|]. split; [exact Hst|].
  exact (eq_trans (Hkeep _ H1) eq_refl).
Defined.
